(** * aste: schema inference and AST-built data structure declarations

    A shallow embedding of the Python package [aste]:
    - [aste.utils.json_schema]: [infer_python_type], [infer_fields_from_json];
    - [aste.datastructures.base]: [DataStructureBuilder.build];
    - [aste.datastructures.builders]: the five concrete builders;
    - [aste.datastructures.factory]: [DataStructureFactory.get_builder].

    Python [str] is [string] (characters with code points below 256), [int]
    is [Z], a [dict] is the list of its items in insertion order, a [list]
    is a [list]. *)

From stdpp Require Import base option list gmap strings.
From Stdlib Require Import ZArith Ascii String SpecFloat Lia.

Set Warnings "-register-all".

Local Open Scope Z_scope.
Local Open Scope nat_scope.

(** ** Python values *)

(** The values [infer_python_type] can be handed ([value : Any]).  A JSON
    document decodes to [PyNone], [PyBool], [PyInt], [PyFloat], [PyStr],
    [PyList] and [PyDict] (with [PyStr] keys); [PyObject] stands for an
    instance of any other class ([object()], a tuple, a set, ...), named by
    its class. *)
Inductive pyvalue : Type :=
| PyNone
| PyBool (b : bool)
| PyInt (n : Z)
| PyFloat (x : spec_float)
| PyStr (s : string)
| PyList (elems : list pyvalue)
| PyDict (items : list (pyvalue * pyvalue))
| PyObject (class_name : string).

(** The classes tested with [isinstance] in the source. *)
Inductive pyclass : Type := Cbool | Cint | Cfloat | Cstr | Clist | Cdict.

(** [value is None] *)
Definition is_None (value : pyvalue) : bool :=
  match value with PyNone => true | _ => false end.

(** [isinstance(value, cls)]: [bool] is a subclass of [int], so a boolean is
    an instance of both. *)
Definition isinstance (value : pyvalue) (cls : pyclass) : bool :=
  match value, cls with
  | PyBool _, Cbool => true
  | PyBool _, Cint => true
  | PyInt _, Cint => true
  | PyFloat _, Cfloat => true
  | PyStr _, Cstr => true
  | PyList _, Clist => true
  | PyDict _, Cdict => true
  | _, _ => false
  end.

(** Truth value of a float: every float but the two zeros is true. *)
Definition float_truth (x : spec_float) : bool :=
  match x with S754_zero _ => false | _ => true end.

(** [bool(value)], the truth value used by [if value] and [not value]. *)
Definition truth (value : pyvalue) : bool :=
  match value with
  | PyNone => false
  | PyBool b => b
  | PyInt n => negb (n =? 0)%Z
  | PyFloat x => float_truth x
  | PyStr s => negb (String.eqb s "")
  | PyList elems => match elems with [] => false | _ :: _ => true end
  | PyDict items => match items with [] => false | _ :: _ => true end
  | PyObject _ => true
  end.

(** ** aste.utils.json_schema *)

(** [infer_python_type(value)].  The chain of tests is the source's, in its
    order; in the two container branches the nested [match] reads the payload
    of [value] (the other constructors cannot reach them, see
    [isinstance_list_inv] and [isinstance_dict_inv]). *)
Fixpoint infer_python_type (value : pyvalue) : string :=
  if is_None value then "None"
  else if isinstance value Cbool then "bool"
  else if isinstance value Cint then "int"
  else if isinstance value Cfloat then "float"
  else if isinstance value Cstr then "str"
  else if isinstance value Clist then
    if negb (truth value) then "list[Any]"
    else
      match value with
      | PyList (first :: _) =>
          let first_type := infer_python_type first in
          "list[" +:+ first_type +:+ "]"
      | _ => "list[Any]"
      end
  else if isinstance value Cdict then
    if negb (truth value) then "dict[str, Any]"
    else
      match value with
      | PyDict ((first_key, first_value) :: _) =>
          let key_type := infer_python_type first_key in
          let value_type := infer_python_type first_value in
          "dict[" +:+ key_type +:+ ", " +:+ value_type +:+ "]"
      | _ => "dict[str, Any]"
      end
  else "Any".

(** [d[key] = v] on a dict given by its items: an existing key keeps its
    position and takes the new value, a new key goes last. *)
Fixpoint dict_setitem {V : Type} (d : list (string * V)) (key : string) (v : V)
  : list (string * V) :=
  match d with
  | [] => [(key, v)]
  | (k, w) :: d' =>
      if String.eqb k key then (k, v) :: d' else (k, w) :: dict_setitem d' key v
  end.

(** [infer_fields_from_json(data)]: the loop over [data.items()] with the
    accumulator [fields], started at the empty dict. *)
Definition infer_fields_from_json (data : list (string * pyvalue))
  : list (string * string) :=
  fold_left
    (fun fields '(key, value) => dict_setitem fields key (infer_python_type value))
    data [].

(** ** The [ast] node classes the builders create

    Only the node classes and fields this program constructs are present.
    [keywords] and [type_params] are always the empty list here; their
    element types have no constructor. *)

Inductive expr_context : Type := Load | Store.

Inductive expr : Type :=
| Name (id : string) (ctx : expr_context).

Inductive alias_node : Type :=
| alias (name : string) (asname : option string).

Inductive keyword : Type := .
Inductive type_param : Type := .

Inductive stmt : Type :=
| ImportFrom (module : option string) (names : list alias_node) (level : nat)
| AnnAssign (target : expr) (annotation : expr) (value : option expr) (simple : nat)
| Pass
| ClassDef (name : string) (bases : list expr) (keywords : list keyword)
    (body : list stmt) (decorator_list : list expr) (type_params : list type_param).

Inductive ast_mod : Type :=
| ast_Module (body : list stmt).

(** ** [ast.unparse]: the standard library's [_Unparser], for these nodes

    The unparser object carries the list of written parts [_source] and the
    indentation level [_indent]; each method is a transformer of that state. *)

Record Unparser : Type := mkUnparser { _source : list string; _indent : nat }.

Definition NL : string := String "010"%char EmptyString.

(** [text * n] *)
Fixpoint str_mul (text : string) (n : nat) : string :=
  match n with
  | O => ""
  | S n' => text +:+ str_mul text n'
  end.

(** [self._source.extend(text)] *)
Definition write (text : string) (self : Unparser) : Unparser :=
  mkUnparser (_source self ++ [text]) (_indent self).

(** [if self._source: self.write("\n")] *)
Definition maybe_newline (self : Unparser) : Unparser :=
  match _source self with
  | [] => self
  | _ :: _ => write NL self
  end.

(** [self.maybe_newline(); self.write("    " * self._indent + text)] *)
Definition fill (text : string) (self : Unparser) : Unparser :=
  let self := maybe_newline self in
  write (str_mul "    " (_indent self) +:+ text) self.

(** [for x in seq: f(x)] on the unparser state. *)
Definition for_each {A : Type} (f : A -> Unparser -> Unparser) (seq : list A)
  (self : Unparser) : Unparser :=
  fold_left (fun self x => f x self) seq self.

(** [self.interleave(inter, f, seq)] *)
Definition interleave {A : Type} (inter : Unparser -> Unparser)
  (f : A -> Unparser -> Unparser) (seq : list A) (self : Unparser) : Unparser :=
  match seq with
  | [] => self
  | x :: seq' => for_each (fun x self => f x (inter self)) seq' (f x self)
  end.

(** [with self.delimit_if(start, end, condition): inner] *)
Definition delimit_if (start end_ : string) (condition : bool)
  (inner : Unparser -> Unparser) (self : Unparser) : Unparser :=
  if condition then write end_ (inner (write start self)) else inner self.

(** [with self.block(): inner] *)
Definition block (inner : Unparser -> Unparser) (self : Unparser) : Unparser :=
  let self := write ":" self in
  let self := mkUnparser (_source self) (S (_indent self)) in
  let self := inner self in
  mkUnparser (_source self) (Nat.pred (_indent self)).

Definition visit_Name (node : expr) (self : Unparser) : Unparser :=
  match node with Name id _ => write id self end.

Definition visit_alias (node : alias_node) (self : Unparser) : Unparser :=
  match node with
  | alias name asname =>
      let self := write name self in
      match asname with
      | Some a => if String.eqb a "" then self else write (" as " +:+ a) self
      | None => self
      end
  end.

(** An absent or empty [module] is false in [if node.module]. *)
Definition visit_ImportFrom (module : option string) (names : list alias_node)
  (level : nat) (self : Unparser) : Unparser :=
  let self := fill "from " self in
  let self := write (str_mul "." level) self in
  let self :=
    match module with
    | Some m => if String.eqb m "" then self else write m self
    | None => self
    end in
  let self := write " import " self in
  interleave (write ", ") visit_alias names self.

(** The target is a [Name], so the parentheses depend on [simple] alone. *)
Definition visit_AnnAssign (target annotation : expr) (value : option expr)
  (simple : nat) (self : Unparser) : Unparser :=
  let self := fill "" self in
  let self := delimit_if "(" ")" (Nat.eqb simple 0) (visit_Name target) self in
  let self := write ": " self in
  let self := visit_Name annotation self in
  match value with
  | Some v => visit_Name v (write " = " self)
  | None => self
  end.

Definition visit_Pass (self : Unparser) : Unparser := fill "pass" self.

(** The bases of a class header, with [comma] threaded through the loop. *)
Definition visit_bases (bases : list expr) (self : Unparser) : Unparser :=
  snd (fold_left
         (fun '(comma, self) e =>
            let self := if (comma : bool) then write ", " self else self in
            (true, visit_Name e self))
         bases (false, self)).

(** [traverse] of a statement; [visit_ClassDef] is the last case.  No
    statement here is an [Expr], so no body has a docstring and
    [_write_docstring_and_traverse_body] is the traversal of the body. *)
Fixpoint visit_stmt (node : stmt) (self : Unparser) : Unparser :=
  match node with
  | ImportFrom module names level => visit_ImportFrom module names level self
  | AnnAssign target annotation value simple =>
      visit_AnnAssign target annotation value simple self
  | Pass => visit_Pass self
  | ClassDef name bases keywords body decorator_list type_params =>
      let self := maybe_newline self in
      let self :=
        for_each (fun deco self => visit_Name deco (fill "@" self))
          decorator_list self in
      let self := fill ("class " +:+ name) self in
      let self :=
        delimit_if "(" ")"
          (match bases, keywords with [], [] => false | _, _ => true end)
          (visit_bases bases) self in
      block (fold_left (fun self item => visit_stmt item self) body) self
  end.

Definition visit_Module (node : ast_mod) (self : Unparser) : Unparser :=
  match node with
  | ast_Module body => for_each visit_stmt body self
  end.

(** [_Unparser.visit]: start from an empty [_source], join the parts. *)
Definition unparse (node : ast_mod) : string :=
  String.concat "" (_source (visit_Module node (mkUnparser [] 0))).

(** ** aste.datastructures *)

(** A builder object has no attribute: it is determined by its class.  The
    abstract base class cannot be instantiated, so these five are all the
    builders there are. *)
Inductive DataStructureBuilder : Type :=
| TypedDictBuilder
| DataclassBuilder
| PydanticBuilder
| NamedTupleBuilder
| AttrsBuilder.

Definition _build_imports {F : Type} (self : DataStructureBuilder)
  (class_name : string) (fields : F) : list stmt :=
  match self with
  | TypedDictBuilder => [ImportFrom (Some "typing") [alias "TypedDict" None] 0]
  | DataclassBuilder => [ImportFrom (Some "dataclasses") [alias "dataclass" None] 0]
  | PydanticBuilder => [ImportFrom (Some "pydantic") [alias "BaseModel" None] 0]
  | NamedTupleBuilder => [ImportFrom (Some "typing") [alias "NamedTuple" None] 0]
  | AttrsBuilder => [ImportFrom (Some "attr") [alias "define" None] 0]
  end.

(** The body method has the same text in the five classes: the loop appends
    one [AnnAssign] per item of [fields], then [Pass] if nothing was
    appended. *)
Definition annotated_body (fields : list (string * string)) : list stmt :=
  let nodes :=
    fold_left
      (fun nodes '(name, typ) =>
         nodes ++ [AnnAssign (Name name Store) (Name typ Load) None 1])
      fields [] in
  match nodes with
  | [] => nodes ++ [Pass]
  | _ :: _ => nodes
  end.

Definition _build_body_nodes (self : DataStructureBuilder) (class_name : string)
  (fields : list (string * string)) : list stmt :=
  match self with
  | TypedDictBuilder => annotated_body fields
  | DataclassBuilder => annotated_body fields
  | PydanticBuilder => annotated_body fields
  | NamedTupleBuilder => annotated_body fields
  | AttrsBuilder => annotated_body fields
  end.

Definition _build_bases {F : Type} (self : DataStructureBuilder)
  (class_name : string) (fields : F) : list expr :=
  match self with
  | TypedDictBuilder => [Name "TypedDict" Load]
  | DataclassBuilder => []
  | PydanticBuilder => [Name "BaseModel" Load]
  | NamedTupleBuilder => [Name "NamedTuple" Load]
  | AttrsBuilder => []
  end.

(** The base class returns no decorator; two classes override it. *)
Definition _build_decorators {F : Type} (self : DataStructureBuilder)
  (class_name : string) (fields : F) : list expr :=
  match self with
  | DataclassBuilder => [Name "dataclass" Load]
  | AttrsBuilder => [Name "define" Load]
  | TypedDictBuilder | PydanticBuilder | NamedTupleBuilder => []
  end.

(** The class node assembled by [build]. *)
Definition class_node (self : DataStructureBuilder) (class_name : string)
  (fields : list (string * string)) : stmt :=
  let body_nodes := _build_body_nodes self class_name fields in
  let bases := _build_bases self class_name fields in
  let decorators := _build_decorators self class_name fields in
  ClassDef class_name bases [] body_nodes decorators [].

(** The module node assembled by [build]. *)
Definition module_node (self : DataStructureBuilder) (class_name : string)
  (fields : list (string * string)) : ast_mod :=
  let import_nodes := _build_imports self class_name fields in
  ast_Module (import_nodes ++ [class_node self class_name fields]).

(** [DataStructureBuilder.build].  [ast.fix_missing_locations] only fills the
    position attributes of the nodes, which [unparse] never reads and the
    node types above do not carry. *)
Definition build (self : DataStructureBuilder) (class_name : string)
  (fields : list (string * string)) : string :=
  unparse (module_node self class_name fields).

(** ** aste.datastructures.factory *)

Inductive exception : Type :=
| KeyError (key : string)
| ValueError (message : string)
| TypeError (message : string)
| RuntimeError (message : string).

Inductive result (A : Type) : Type :=
| Return (a : A)
| Raise (exc : exception).
Arguments Return {A} a.
Arguments Raise {A} exc.

(** [d[key]]: the value of the first (only) item with that key, or [KeyError]. *)
Fixpoint dict_getitem {V : Type} (d : list (string * V)) (key : string) : result V :=
  match d with
  | [] => Raise (KeyError key)
  | (k, v) :: d' => if String.eqb k key then Return v else dict_getitem d' key
  end.

(** [DataStructureFactory.get_builder] *)
Definition get_builder (builder_type : string) : result DataStructureBuilder :=
  let mapping :=
    [("typed_dict", TypedDictBuilder);
     ("dataclass", DataclassBuilder);
     ("pydantic", PydanticBuilder);
     ("namedtuple", NamedTupleBuilder);
     ("attrs", AttrsBuilder)] in
  match dict_getitem mapping builder_type with
  | Return builder => Return builder
  | Raise (KeyError _) =>
      let message := "Unknown builder type: " +:+ builder_type in
      Raise (ValueError message)
  | Raise exc => Raise exc
  end.

(** [s.startswith(prefix)] *)
Fixpoint startswith (s prefix : string) {struct prefix} : bool :=
  match prefix with
  | EmptyString => true
  | String a prefix' =>
      match s with
      | EmptyString => false
      | String b s' => Ascii.eqb a b && startswith s' prefix'
      end
  end.

(** [sub in s] on strings. *)
Fixpoint str_in (sub s : string) : bool :=
  startswith s sub ||
  match s with
  | EmptyString => false
  | String _ s' => str_in sub s'
  end.

(** ** The grammar the generated text is read with

    The part of Python's grammar the text of [build] can fall in: a module
    of [from NAME import NAME] statements and (decorated) class definitions
    whose block is made of [pass] and annotated names, with the annotation a
    name, [None], or a name subscripted by such expressions.  Lines are
    split at the newline character; blank lines are skipped; the leading
    spaces of a line are its indentation; spaces separate tokens.  The
    characters of a [string] are the code points below 256, and the names
    are the identifiers the language has over them; brackets nest at most
    [MAXLEVEL] deep, as in the language's tokenizer. *)

Definition in_range (lo hi : nat) (c : ascii) : bool :=
  (lo <=? nat_of_ascii c) && (nat_of_ascii c <=? hi).

(** First character of a name: the underscore or a letter, among them the
    letters between 170 and 255 (all of 192 to 255 but the two signs 215
    and 247). *)
Definition is_id_start (c : ascii) : bool :=
  in_range 65 90 c || in_range 97 122 c || Ascii.eqb c "_"
  || in_range 170 170 c || in_range 181 181 c || in_range 186 186 c
  || in_range 192 214 c || in_range 216 246 c || in_range 248 255 c.

(** Other characters of a name: those, the digits and the middle dot. *)
Definition is_id_continue (c : ascii) : bool :=
  is_id_start c || in_range 48 57 c || in_range 183 183 c.

(** The deepest nesting of brackets the tokenizer takes. *)
Definition MAXLEVEL : nat := 200.

Definition is_space (c : ascii) : bool := Ascii.eqb c " ".

Definition is_newline (c : ascii) : bool := Ascii.eqb c "010".

(** The reserved words, which are no names. *)
Definition kwlist : list string :=
  ["False"; "None"; "True"; "and"; "as"; "assert"; "async"; "await"; "break";
   "class"; "continue"; "def"; "del"; "elif"; "else"; "except"; "finally";
   "for"; "from"; "global"; "if"; "import"; "in"; "is"; "lambda"; "nonlocal";
   "not"; "or"; "pass"; "raise"; "return"; "try"; "while"; "with"; "yield"].

Definition iskeyword (s : string) : bool := existsb (String.eqb s) kwlist.

Fixpoint str_forallb (p : ascii -> bool) (s : string) : bool :=
  match s with
  | EmptyString => true
  | String c s' => p c && str_forallb p s'
  end.

(** A NAME token: an identifier that is not reserved. *)
Definition is_NAME (s : string) : bool :=
  match s with
  | EmptyString => false
  | String c s' => is_id_start c && str_forallb is_id_continue s' && negb (iskeyword s)
  end.

(** The longest prefix of [s] whose characters satisfy [p], and the rest. *)
Fixpoint span (p : ascii -> bool) (s : string) : string * string :=
  match s with
  | EmptyString => (EmptyString, EmptyString)
  | String c s' =>
      if p c then let (a, b) := span p s' in (String c a, b) else (EmptyString, s)
  end.

Definition skip_spaces (s : string) : string := snd (span is_space s).

(** The next word (a maximal run of name characters) and what follows it. *)
Definition scan_word (s : string) : string * string :=
  span is_id_continue (skip_spaces s).

Definition scan_NAME (s : string) : option string :=
  let (w, rest) := scan_word s in
  if is_NAME w then Some rest else None.

Definition scan_keyword (kw s : string) : option string :=
  let (w, rest) := scan_word s in
  if String.eqb w kw then Some rest else None.

Definition scan_op (op : ascii) (s : string) : option string :=
  match skip_spaces s with
  | String c rest => if Ascii.eqb c op then Some rest else None
  | EmptyString => None
  end.

Definition at_end (s : string) : bool := String.eqb (skip_spaces s) "".

(** An atom of an annotation: a name or [None]. *)
Definition scan_atom (s : string) : option string :=
  let (w, rest) := scan_word s in
  if is_NAME w || String.eqb w "None" then Some rest else None.

(** [parse_expr]: an atom, optionally subscripted; [parse_slices]: after the
    first subscript element, more elements after commas up to the closing
    bracket.  [level] counts the brackets that are open; an opening bracket
    at [MAXLEVEL] is refused.  Each call consumes a character, so the length
    of the text is fuel enough. *)
Fixpoint parse_expr (fuel level : nat) (s : string) {struct fuel} : option string :=
  match fuel with
  | O => None
  | S fuel =>
      match scan_atom s with
      | None => None
      | Some rest =>
          match scan_op "[" rest with
          | None => Some rest
          | Some rest =>
              if MAXLEVEL <=? level then None
              else
                match parse_expr fuel (S level) rest with
                | None => None
                | Some rest => parse_slices fuel (S level) rest
                end
          end
      end
  end
with parse_slices (fuel level : nat) (s : string) {struct fuel} : option string :=
  match fuel with
  | O => None
  | S fuel =>
      match scan_op "]" s with
      | Some rest => Some rest
      | None =>
          match scan_op "," s with
          | None => None
          | Some rest =>
              match parse_expr fuel level rest with
              | None => None
              | Some rest => parse_slices fuel level rest
              end
          end
      end
  end.

(** The whole of [s] is an annotation expression. *)
Definition is_annotation (s : string) : bool :=
  match parse_expr (S (String.length s)) 0 s with
  | Some rest => at_end rest
  | None => false
  end.

(** [from NAME import NAME] *)
Definition is_import_from (s : string) : bool :=
  match scan_keyword "from" s with
  | None => false
  | Some rest =>
      match scan_NAME rest with
      | None => false
      | Some rest =>
          match scan_keyword "import" rest with
          | None => false
          | Some rest =>
              match scan_NAME rest with
              | None => false
              | Some rest => at_end rest
              end
          end
      end
  end.

(** [@NAME] *)
Definition is_decorator (s : string) : bool :=
  match scan_op "@" s with
  | None => false
  | Some rest =>
      match scan_NAME rest with
      | None => false
      | Some rest => at_end rest
      end
  end.

(** [class NAME:] or [class NAME(NAME):] *)
Definition is_class_header (s : string) : bool :=
  match scan_keyword "class" s with
  | None => false
  | Some rest =>
      match scan_NAME rest with
      | None => false
      | Some rest =>
          match scan_op "(" rest with
          | None =>
              match scan_op ":" rest with
              | None => false
              | Some rest => at_end rest
              end
          | Some rest =>
              match scan_NAME rest with
              | None => false
              | Some rest =>
                  match scan_op ")" rest with
                  | None => false
                  | Some rest =>
                      match scan_op ":" rest with
                      | None => false
                      | Some rest => at_end rest
                      end
                  end
              end
          end
      end
  end.

(** A statement of a class block: [pass] or [NAME: annotation]. *)
Definition is_simple_stmt (s : string) : bool :=
  match scan_keyword "pass" s with
  | Some rest => at_end rest
  | None =>
      match scan_NAME s with
      | None => false
      | Some rest =>
          match scan_op ":" rest with
          | None => false
          | Some rest => is_annotation rest
          end
      end
  end.

(** The lines of a text. *)
Fixpoint split_lines (s : string) : list string :=
  match s with
  | EmptyString => [EmptyString]
  | String c s' =>
      if is_newline c then EmptyString :: split_lines s'
      else
        match split_lines s' with
        | l :: ls => String c l :: ls
        | [] => [String c EmptyString]
        end
  end.

(** The logical lines: the lines that are not blank, each with its
    indentation and its text. *)
Definition logical_line (line : string) : option (nat * string) :=
  let (ind, text) := span is_space line in
  match text with
  | EmptyString => None
  | String _ _ => Some (String.length ind, text)
  end.

Definition logical_lines (s : string) : list (nat * string) :=
  omap logical_line (split_lines s).

(** Where the reader is: at a statement of the module, after a decorator,
    after a class header, or in a class block indented by [k]. *)
Inductive parser_state : Type :=
| at_module
| after_decorator
| after_header
| in_block (k : nat).

Definition module_line (text : string) : option parser_state :=
  if is_import_from text then Some at_module
  else if is_decorator text then Some after_decorator
  else if is_class_header text then Some after_header
  else None.

Definition parser_step (st : parser_state) (line : nat * string)
  : option parser_state :=
  let (ind, text) := line in
  match st with
  | at_module => if ind =? 0 then module_line text else None
  | after_decorator =>
      if ind =? 0 then
        if is_decorator text then Some after_decorator
        else if is_class_header text then Some after_header
        else None
      else None
  | after_header =>
      if 0 <? ind then
        if is_simple_stmt text then Some (in_block ind) else None
      else None
  | in_block k =>
      if ind =? k then
        if is_simple_stmt text then Some (in_block k) else None
      else if ind =? 0 then module_line text
      else None
  end.

Fixpoint parser_run (st : parser_state) (lines : list (nat * string))
  : option parser_state :=
  match lines with
  | [] => Some st
  | line :: lines' =>
      match parser_step st line with
      | None => None
      | Some st' => parser_run st' lines'
      end
  end.

(** The text is a module of this grammar. *)
Definition py_parses (s : string) : bool :=
  match parser_run at_module (logical_lines s) with
  | Some at_module => true
  | Some (in_block _) => true
  | _ => false
  end.

(** The annotation expressions as texts, with a bound on the nesting of
    their brackets: a name, [None], or a name subscripted by one or more
    such expressions separated by a comma and a space.  [type_expr n t]: the
    brackets of [t] nest at most [n] deep. *)
Inductive type_expr : nat -> string -> Prop :=
| TE_name (n : nat) (id : string) : is_NAME id = true -> type_expr n id
| TE_None (n : nat) : type_expr n "None"
| TE_subscript (n : nat) (id args : string) :
    is_NAME id = true -> type_args n args ->
    type_expr (S n) (id +:+ "[" +:+ args +:+ "]")
with type_args : nat -> string -> Prop :=
| TA_one (n : nat) (a : string) : type_expr n a -> type_args n a
| TA_more (n : nat) (a args : string) :
    type_expr n a -> type_args n args -> type_args n (a +:+ ", " +:+ args).

Scheme type_expr_mut := Minimality for type_expr Sort Prop
  with type_args_mut := Minimality for type_args Sort Prop.

Combined Scheme type_expr_args_ind from type_expr_mut, type_args_mut.

(** ** The same two functions on a store of mutable objects

    The functions above take the items of their dict arguments.  Here the
    arguments are references into a store, the loops read the dict through
    the reference at every step, and [fields[key] = ...] and
    [nodes.append(...)] update the store.  JSON values, strings and [ast]
    nodes stay values: the code only reads them. *)

Definition loc : Type := positive.

Inductive object : Type :=
| JsonDict (items : list (string * pyvalue))
| FieldDict (items : list (string * string))
| NodeList (nodes : list stmt).

Definition json_items (o : object) : option (list (string * pyvalue)) :=
  match o with JsonDict items => Some items | _ => None end.

Definition field_items (o : object) : option (list (string * string)) :=
  match o with FieldDict items => Some items | _ => None end.

Definition node_items (o : object) : option (list stmt) :=
  match o with NodeList nodes => Some nodes | _ => None end.

(** A computation on the store that returns or raises. *)
Definition Py (A : Type) : Type := gmap loc object -> result (A * gmap loc object).

#[global] Instance Py_ret : MRet Py := fun A a st => Return (a, st).

#[global] Instance Py_bind : MBind Py := fun A B f m st =>
  match m st with
  | Return (a, st') => f a st'
  | Raise exc => Raise exc
  end.

Definition raise {A : Type} (exc : exception) : Py A := fun _ => Raise exc.

(** A new object, at a location the store does not use. *)
Definition alloc (o : object) : Py loc := fun st =>
  let l := fresh (dom st) in Return (l, <[l := o]> st).

(** The object at [l], seen through [view]. *)
Definition read {A : Type} (view : object -> option A) (l : loc) : Py A := fun st =>
  match st !! l ≫= view with
  | Some a => Return (a, st)
  | None => Raise (TypeError "unexpected object")
  end.

Definition store_object (l : loc) (o : object) : Py unit := fun st =>
  Return (tt, <[l := o]> st).

(** [fields[key] = v] *)
Definition setitem (fields : loc) (key v : string) : Py unit :=
  items ← read field_items fields;
  store_object fields (FieldDict (dict_setitem items key v)).

(** [nodes.append(node)] *)
Definition append (nodes : loc) (node : stmt) : Py unit :=
  items ← read node_items nodes;
  store_object nodes (NodeList (items ++ [node])).

(** The steps of [for key, value in d.items(): body]: the iterator was
    created when the dict had [size] items, [i] items are done and [n] are
    left; each step reads the dict again and raises if its size changed. *)
Fixpoint iterate {V : Type} (view : object -> option (list (string * V)))
  (d : loc) (size i n : nat) (body : string -> V -> Py unit) : Py unit :=
  match n with
  | O => mret tt
  | S n' =>
      items ← read view d;
      if negb (List.length items =? size) then
        raise (RuntimeError "dictionary changed size during iteration")
      else
        match items !! i with
        | None => raise (RuntimeError "dictionary changed size during iteration")
        | Some (key, value) =>
            body key value;;
            iterate view d size (S i) n' body
        end
  end.

(** [for key, value in d.items(): body] *)
Definition for_items {V : Type} (view : object -> option (list (string * V)))
  (d : loc) (body : string -> V -> Py unit) : Py unit :=
  items ← read view d;
  iterate view d (List.length items) 0 (List.length items) body.

(** [infer_fields_from_json(data)], [data] a reference. *)
Definition infer_fields_from_json_st (data : loc) : Py loc :=
  fields ← alloc (FieldDict []);
  for_items json_items data
    (fun key value => setitem fields key (infer_python_type value));;
  mret fields.

(** The body method (the same in the five classes), [fields] a reference. *)
Definition annotated_body_st (fields : loc) : Py loc :=
  nodes ← alloc (NodeList []);
  for_items field_items fields
    (fun name typ =>
       append nodes (AnnAssign (Name name Store) (Name typ Load) None 1));;
  items ← read node_items nodes;
  match items with
  | [] => append nodes Pass
  | _ :: _ => mret tt
  end;;
  mret nodes.

Definition _build_body_nodes_st (self : DataStructureBuilder) (class_name : string)
  (fields : loc) : Py loc :=
  match self with
  | TypedDictBuilder => annotated_body_st fields
  | DataclassBuilder => annotated_body_st fields
  | PydanticBuilder => annotated_body_st fields
  | NamedTupleBuilder => annotated_body_st fields
  | AttrsBuilder => annotated_body_st fields
  end.

(** [build(class_name, fields)], [fields] a reference. *)
Definition build_st (self : DataStructureBuilder) (class_name : string)
  (fields : loc) : Py string :=
  let import_nodes := _build_imports self class_name fields in
  body_nodes ← _build_body_nodes_st self class_name fields;
  let bases := _build_bases self class_name fields in
  let decorators := _build_decorators self class_name fields in
  body ← read node_items body_nodes;
  let class_node := ClassDef class_name bases [] body decorators [] in
  let module_node := ast_Module (import_nodes ++ [class_node]) in
  mret (unparse module_node).

(** ** The text the builders are expected to write, line by line *)

Definition import_line (self : DataStructureBuilder) : string :=
  match self with
  | TypedDictBuilder => "from typing import TypedDict"
  | DataclassBuilder => "from dataclasses import dataclass"
  | PydanticBuilder => "from pydantic import BaseModel"
  | NamedTupleBuilder => "from typing import NamedTuple"
  | AttrsBuilder => "from attr import define"
  end.

Definition decorator_lines (self : DataStructureBuilder) : list string :=
  match self with
  | DataclassBuilder => ["@dataclass"]
  | AttrsBuilder => ["@define"]
  | TypedDictBuilder | PydanticBuilder | NamedTupleBuilder => []
  end.

Definition class_header (self : DataStructureBuilder) (class_name : string) : string :=
  match self with
  | TypedDictBuilder => "class " +:+ class_name +:+ "(TypedDict):"
  | DataclassBuilder => "class " +:+ class_name +:+ ":"
  | PydanticBuilder => "class " +:+ class_name +:+ "(BaseModel):"
  | NamedTupleBuilder => "class " +:+ class_name +:+ "(NamedTuple):"
  | AttrsBuilder => "class " +:+ class_name +:+ ":"
  end.

Definition field_line (field : string * string) : string :=
  "    " +:+ field.1 +:+ ": " +:+ field.2.

Definition body_lines (fields : list (string * string)) : list string :=
  match fields with
  | [] => ["    pass"]
  | _ :: _ => map field_line fields
  end.

Definition source_lines (self : DataStructureBuilder) (class_name : string)
  (fields : list (string * string)) : list string :=
  [import_line self; ""] ++ decorator_lines self
    ++ [class_header self class_name] ++ body_lines fields.

(** The text [rest] does not continue a word: it is empty or starts with a
    character that is not a name character. *)
Definition stops_word (rest : string) : bool :=
  match rest with
  | EmptyString => true
  | String c _ => negb (is_id_continue c)
  end.

(** The text [rest] ends an expression: it is empty or starts with a closing
    bracket or a comma. *)
Definition ends_expr (rest : string) : bool :=
  match rest with
  | EmptyString => true
  | String c _ => Ascii.eqb c "]" || Ascii.eqb c ","
  end.

(** A non-empty word of name characters. *)
Definition is_word (w : string) : bool :=
  match w with
  | EmptyString => false
  | String _ _ => str_forallb is_id_continue w
  end.

Definition no_newline (s : string) : bool :=
  str_forallb (fun c => negb (is_newline c)) s.



(** The nesting of the brackets of [infer_python_type value]. *)
Fixpoint type_nesting (value : pyvalue) : nat :=
  match value with
  | PyList (first :: _) => S (type_nesting first)
  | PyList [] => 1
  | PyDict ((first_key, first_value) :: _) =>
      S (Nat.max (type_nesting first_key) (type_nesting first_value))
  | PyDict [] => 1
  | _ => 0
  end.

(** The deepest chain of calls of [infer_python_type(value)], the first call
    counted. *)
Fixpoint call_depth (value : pyvalue) : nat :=
  match value with
  | PyList (first :: _) => S (call_depth first)
  | PyDict ((first_key, first_value) :: _) =>
      S (Nat.max (call_depth first_key) (call_depth first_value))
  | _ => 1
  end.

(** [infer_python_type(value)] on an interpreter that has [frames] frames
    left on its call stack: each call takes one, and a call that finds none
    raises [RecursionError], a [RuntimeError].  The chain of tests and the
    order of the two recursive calls on a dict are the source's. *)
Fixpoint infer_python_type_in (frames : nat) (value : pyvalue) : result string :=
  match frames with
  | O => Raise (RuntimeError "maximum recursion depth exceeded")
  | S frames =>
      if is_None value then Return "None"
      else if isinstance value Cbool then Return "bool"
      else if isinstance value Cint then Return "int"
      else if isinstance value Cfloat then Return "float"
      else if isinstance value Cstr then Return "str"
      else if isinstance value Clist then
        if negb (truth value) then Return "list[Any]"
        else
          match value with
          | PyList (first :: _) =>
              match infer_python_type_in frames first with
              | Return first_type => Return ("list[" +:+ first_type +:+ "]")
              | Raise exc => Raise exc
              end
          | _ => Return "list[Any]"
          end
      else if isinstance value Cdict then
        if negb (truth value) then Return "dict[str, Any]"
        else
          match value with
          | PyDict ((first_key, first_value) :: _) =>
              match infer_python_type_in frames first_key with
              | Return key_type =>
                  match infer_python_type_in frames first_value with
                  | Return value_type =>
                      Return ("dict[" +:+ key_type +:+ ", " +:+ value_type +:+ "]")
                  | Raise exc => Raise exc
                  end
              | Raise exc => Raise exc
              end
          | _ => Return "dict[str, Any]"
          end
      else Return "Any"
  end.

(** [value] wrapped in [n] lists of one element. *)
Fixpoint nested_list (n : nat) (value : pyvalue) : pyvalue :=
  match n with
  | O => value
  | S n' => PyList [nested_list n' value]
  end.

Definition no_colon (s : string) : bool :=
  str_forallb (fun c => negb (Ascii.eqb c ":")) s.

(** A field whose name and type sit on one line, the name without a colon. *)
Definition field_plain (field : string * string) : Prop :=
  no_newline field.1 = true /\ no_colon field.1 = true /\ no_newline field.2 = true.

(** A store with a field dict at 1 and a JSON dict at 2. *)
Definition example_store : gmap loc object :=
  <[2%positive := JsonDict [("user_id", PyInt 123); ("tags", PyList [PyStr "a"])]]>
    (<[1%positive := FieldDict [("id", "int"); ("name", "str")]]> ∅).

(** The lines after the first, each after a newline. *)
Definition more_lines (lines : list string) : string :=
  foldr (fun line text => NL +:+ line +:+ text) "" lines.

(** The annotated assignment for one field. *)
Definition field_node (field : string * string) : stmt :=
  AnnAssign (Name field.1 Store) (Name field.2 Load) None 1.

(** The five identifiers of the factory. *)
Definition known_kinds : list string :=
  ["typed_dict"; "dataclass"; "pydantic"; "namedtuple"; "attrs"].

(** ** aste.cli.main: from the loaded JSON to the generated code

    What [main] computes between loading the JSON and writing the file
    (the console messages, the argument parser and the file are left out).
    [json_data] is [None] when no source was given, and else the object the
    loader returned. *)

(** The [choices] of the [--type] argument. *)
Definition type_choices : list string :=
  ["typed_dict"; "dataclass"; "pydantic"; "namedtuple"; "attrs"].

(** The fields of [main]: [if json_data:] is false for [None] and for the
    empty dict. *)
Definition main_fields (json_data : option (list (string * pyvalue)))
  : list (string * string) :=
  match json_data with
  | Some data =>
      match data with
      | _ :: _ => infer_fields_from_json data
      | [] => [("user_id", "int"); ("username", "str"); ("is_active", "bool")]
      end
  | None => [("user_id", "int"); ("username", "str"); ("is_active", "bool")]
  end.

(** [generated_code] in [main], for the parsed [--type] and [--name]. *)
Definition main_generated_code (type name : string)
  (json_data : option (list (string * pyvalue))) : result string :=
  let fields := main_fields json_data in
  let class_name := name in
  match get_builder type with
  | Return builder => Return (build builder class_name fields)
  | Raise exc => Raise exc
  end.

(** The values a JSON document decodes to: no other object, and strings as
    the keys of every dict. *)
Fixpoint is_json (value : pyvalue) : bool :=
  match value with
  | PyNone | PyBool _ | PyInt _ | PyFloat _ | PyStr _ => true
  | PyList elems => forallb is_json elems
  | PyDict items =>
      forallb (fun item => isinstance item.1 Cstr && is_json item.2) items
  | PyObject _ => false
  end.

Example build_typed_dict_user :
  build TypedDictBuilder "User" [("id", "int"); ("name", "str")]
  = "from typing import TypedDict" +:+ NL +:+ NL +:+
    "class User(TypedDict):" +:+ NL +:+
    "    id: int" +:+ NL +:+
    "    name: str".
Proof. reflexivity. Qed.

Example build_dataclass_empty :
  build DataclassBuilder "Empty" []
  = "from dataclasses import dataclass" +:+ NL +:+ NL +:+
    "@dataclass" +:+ NL +:+
    "class Empty:" +:+ NL +:+
    "    pass".
Proof. reflexivity. Qed.

Example parses_typed_dict_user :
  py_parses (build TypedDictBuilder "User" [("id", "int"); ("name", "list[str]")]) = true.
Proof. vm_compute. reflexivity. Qed.

Example parses_attrs_empty :
  py_parses (build AttrsBuilder "Empty" []) = true.
Proof. vm_compute. reflexivity. Qed.

Example not_parses_spaced_key :
  py_parses (build TypedDictBuilder "User" [("first name", "str")]) = false.
Proof. vm_compute. reflexivity. Qed.

Example not_parses_kw :
  py_parses (build TypedDictBuilder "User" [("class", "dict[str, Any]")]) = false.
Proof. vm_compute. reflexivity. Qed.

Example parses_kw_ok :
  py_parses (build TypedDictBuilder "User" [("klass", "dict[str, Any]"); ("a", "dict[str, list[None]]")]) = true.
Proof. vm_compute. reflexivity. Qed.

Example is_NAME_latin_letter :
  is_NAME (String "233" "") = true /\
  py_parses (build TypedDictBuilder "User" [(String "233" "", "str")]) = true.
Proof. split; vm_compute; reflexivity. Qed.

Example is_annotation_at_MAXLEVEL :
  is_annotation (str_mul "list[" 200 +:+ "Any" +:+ str_mul "]" 200) = true /\
  is_annotation (str_mul "list[" 201 +:+ "Any" +:+ str_mul "]" 201) = false.
Proof. split; vm_compute; reflexivity. Qed.

(** * Properties *)

(** ** Strings *)

Lemma str_app_cons (c : ascii) (a b : string) :
  String c a +:+ b = String c (a +:+ b).
Proof. reflexivity. Qed.

Lemma str_app_nil_l (b : string) : "" +:+ b = b.
Proof. reflexivity. Qed.

Lemma str_app_assoc (a b c : string) : (a +:+ b) +:+ c = a +:+ b +:+ c.
Proof.
  induction a as [|x a IH]; [reflexivity|].
  rewrite !str_app_cons. by rewrite IH.
Qed.

Lemma str_app_nil_r (a : string) : a +:+ "" = a.
Proof.
  induction a as [|x a IH]; [reflexivity|].
  rewrite str_app_cons. by rewrite IH.
Qed.

Lemma str_length_app (a b : string) :
  String.length (a +:+ b) = String.length a + String.length b.
Proof.
  induction a as [|x a IH]; [reflexivity|].
  rewrite str_app_cons. simpl. by rewrite IH.
Qed.

(** Brings concatenations to the form [c1 :: c2 :: ... (x +:+ (y +:+ ...))]. *)
Ltac str_norm :=
  repeat rewrite ?str_app_assoc, ?str_app_cons, ?str_app_nil_l, ?str_app_nil_r.

Ltac str_norm_in H :=
  repeat rewrite ?str_app_assoc, ?str_app_cons, ?str_app_nil_l, ?str_app_nil_r in H.

(** ** Values and type inference *)

Lemma isinstance_list_inv (value : pyvalue) :
  isinstance value Clist = true -> exists elems, value = PyList elems.
Proof. destruct value; simpl; try discriminate. eauto. Qed.

Lemma isinstance_dict_inv (value : pyvalue) :
  isinstance value Cdict = true -> exists items, value = PyDict items.
Proof. destruct value; simpl; try discriminate. eauto. Qed.

Lemma isinstance_bool_inv (value : pyvalue) :
  isinstance value Cbool = true -> exists b, value = PyBool b.
Proof. destruct value; simpl; try discriminate. eauto. Qed.

(** Induction on values that reaches the elements of lists and the keys and
    values of dicts. *)
Lemma pyvalue_nested_ind (P : pyvalue -> Prop) :
  P PyNone ->
  (forall b, P (PyBool b)) ->
  (forall n, P (PyInt n)) ->
  (forall x, P (PyFloat x)) ->
  (forall s, P (PyStr s)) ->
  (forall elems, Forall P elems -> P (PyList elems)) ->
  (forall items, Forall (fun kv => P kv.1 /\ P kv.2) items -> P (PyDict items)) ->
  (forall c, P (PyObject c)) ->
  forall value, P value.
Proof.
  intros HN HB HI HF HS HL HD HO.
  fix IH 1.
  intros [ | b | n | x | s | elems | items | c];
    [apply HN | apply HB | apply HI | apply HF | apply HS | | | apply HO].
  - apply HL. induction elems as [|e es IHes]; constructor.
    + apply IH.
    + apply IHes.
  - apply HD. induction items as [|[k v] its IHits]; constructor.
    + split; apply IH.
    + apply IHits.
Qed.

Lemma infer_python_type_list_cons (first : pyvalue) (rest : list pyvalue) :
  infer_python_type (PyList (first :: rest))
  = "list[" +:+ infer_python_type first +:+ "]".
Proof. reflexivity. Qed.

Lemma infer_python_type_dict_cons (k v : pyvalue) (rest : list (pyvalue * pyvalue)) :
  infer_python_type (PyDict ((k, v) :: rest))
  = "dict[" +:+ infer_python_type k +:+ ", " +:+ infer_python_type v +:+ "]".
Proof. reflexivity. Qed.

Lemma type_expr_mono :
  (forall n t, type_expr n t -> forall m, n <= m -> type_expr m t) /\
  (forall n args, type_args n args -> forall m, n <= m -> type_args m args).
Proof.
  apply type_expr_args_ind.
  - intros n id Hid m _. by apply TE_name.
  - intros n m _. apply TE_None.
  - intros n id args Hid _ IH [|m] Hm; [lia|].
    apply TE_subscript; [done|]. apply IH. lia.
  - intros n a _ IH m Hm. apply TA_one. by apply IH.
  - intros n a args _ IHa _ IHargs m Hm. apply TA_more; [by apply IHa | by apply IHargs].
Qed.

(** Every inferred type name is an annotation expression, with the brackets
    nested as deep as [type_nesting] says. *)
Lemma infer_python_type_type_expr (value : pyvalue) :
  type_expr (type_nesting value) (infer_python_type value).
Proof.
  induction value using pyvalue_nested_ind;
    try (apply TE_name; reflexivity); try apply TE_None.
  - destruct H as [|first rest Hfirst _].
    + apply (TE_subscript 0 "list" "Any"); [reflexivity|].
      apply TA_one, TE_name. reflexivity.
    + rewrite infer_python_type_list_cons. cbn [type_nesting].
      apply (TE_subscript _ "list"); [reflexivity|]. by apply TA_one.
  - destruct H as [|[k v] rest [Hk Hv] _].
    + apply (TE_subscript 0 "dict" "str, Any"); [reflexivity|].
      apply (TA_more 0 "str" "Any"); [|apply TA_one]; apply TE_name; reflexivity.
    + rewrite infer_python_type_dict_cons. cbn [type_nesting].
      replace ("dict[" +:+ infer_python_type k +:+ ", " +:+ infer_python_type v +:+ "]")
        with ("dict" +:+ "[" +:+ (infer_python_type k +:+ ", " +:+ infer_python_type v) +:+ "]")
        by (by str_norm).
      cbn [fst snd] in Hk, Hv.
      apply (TE_subscript _ "dict"); [reflexivity|].
      apply TA_more; [|apply TA_one].
      * apply (proj1 type_expr_mono _ _ Hk). lia.
      * apply (proj1 type_expr_mono _ _ Hv). lia.
Qed.

(** C3: the type of a dict is built from its first item; the type of the
    empty dict is [dict[str, Any]]. *)
Theorem infer_python_type_dict :
  infer_python_type (PyDict []) = "dict[str, Any]" /\
  forall (k val : pyvalue) (rest : list (pyvalue * pyvalue)),
    infer_python_type (PyDict ((k, val) :: rest))
    = "dict[" +:+ infer_python_type k +:+ ", " +:+ infer_python_type val +:+ "]".
Proof. split; [reflexivity | intros; apply infer_python_type_dict_cons]. Qed.

(** C4: the type of a list is built from its first element alone; the type
    of the empty list is [list[Any]]. *)
Theorem infer_python_type_list :
  infer_python_type (PyList []) = "list[Any]" /\
  forall (a : list pyvalue) (first : pyvalue),
    a !! 0 = Some first ->
    infer_python_type (PyList a) = "list[" +:+ infer_python_type first +:+ "]".
Proof.
  split; [reflexivity|].
  intros [|x rest] first Hfirst; simplify_eq/=.
  apply (infer_python_type_list_cons first rest).
Qed.

(** C5: a boolean is typed [bool], not [int], although it is an instance of
    [int] too. *)
Theorem infer_python_type_bool (v : pyvalue) :
  isinstance v Cbool = true ->
  infer_python_type v = "bool" /\
  infer_python_type v <> "int" /\
  isinstance v Cint = true.
Proof.
  intros [b ->]%isinstance_bool_inv. repeat split. discriminate.
Qed.

Lemma infer_python_type_in_list_cons (frames : nat) (first : pyvalue)
  (rest : list pyvalue) :
  infer_python_type_in (S frames) (PyList (first :: rest))
  = match infer_python_type_in frames first with
    | Return first_type => Return ("list[" +:+ first_type +:+ "]")
    | Raise exc => Raise exc
    end.
Proof. reflexivity. Qed.

Lemma infer_python_type_in_dict_cons (frames : nat) (k v : pyvalue)
  (rest : list (pyvalue * pyvalue)) :
  infer_python_type_in (S frames) (PyDict ((k, v) :: rest))
  = match infer_python_type_in frames k with
    | Return key_type =>
        match infer_python_type_in frames v with
        | Return value_type =>
            Return ("dict[" +:+ key_type +:+ ", " +:+ value_type +:+ "]")
        | Raise exc => Raise exc
        end
    | Raise exc => Raise exc
    end.
Proof. reflexivity. Qed.

(** With frames enough for the chain of calls the run returns what
    [infer_python_type] computes, and with fewer it raises. *)
Lemma infer_python_type_in_frames (value : pyvalue) :
  forall frames,
    (call_depth value <= frames ->
     infer_python_type_in frames value = Return (infer_python_type value)) /\
    (frames < call_depth value ->
     infer_python_type_in frames value
     = Raise (RuntimeError "maximum recursion depth exceeded")).
Proof.
  induction value as [ | b | n | x | s | elems IH | items IH | c]
    using pyvalue_nested_ind;
    try (intros [|frames]; split; cbn [call_depth]; intros Hle;
         solve [lia | reflexivity]).
  - destruct IH as [|first rest IHfirst _].
    { intros [|frames]; split; cbn [call_depth]; intros Hle;
        solve [lia | reflexivity]. }
    intros [|frames]; cbn [call_depth]; (split; intros Hle; try lia); [reflexivity| |].
    + rewrite infer_python_type_in_list_cons, infer_python_type_list_cons.
      by rewrite (proj1 (IHfirst frames)) by lia.
    + rewrite infer_python_type_in_list_cons.
      by rewrite (proj2 (IHfirst frames)) by lia.
  - destruct IH as [|[k v] rest [IHk IHv] _].
    { intros [|frames]; split; cbn [call_depth]; intros Hle;
        solve [lia | reflexivity]. }
    cbn [fst snd] in IHk, IHv.
    intros [|frames]; cbn [call_depth]; (split; intros Hle; try lia); [reflexivity| |].
    + rewrite infer_python_type_in_dict_cons, infer_python_type_dict_cons.
      rewrite (proj1 (IHk frames)) by lia. by rewrite (proj1 (IHv frames)) by lia.
    + rewrite infer_python_type_in_dict_cons.
      destruct (Nat.lt_ge_cases frames (call_depth k)) as [Hk|Hk].
      * by rewrite (proj2 (IHk frames)) by lia.
      * rewrite (proj1 (IHk frames)) by lia. by rewrite (proj2 (IHv frames)) by lia.
Qed.

Lemma infer_python_type_Any (value : pyvalue) :
  infer_python_type value = "Any"
  <-> is_None value = false /\ forall cls, isinstance value cls = false.
Proof.
  split.
  - destruct value as [ | b | n | x | s | elems | items | c]; try discriminate.
    + destruct elems as [|first rest]; [discriminate|].
      rewrite infer_python_type_list_cons. discriminate.
    + destruct items as [|[k v] rest]; [discriminate|].
      rewrite infer_python_type_dict_cons. discriminate.
    + intros _. split; [reflexivity | by intros []].
  - intros [HNone Hcls]. destruct value; simpl in *; try discriminate;
      try (specialize (Hcls Cbool); discriminate Hcls);
      try (specialize (Hcls Cint); discriminate Hcls);
      try (specialize (Hcls Cfloat); discriminate Hcls);
      try (specialize (Hcls Cstr); discriminate Hcls);
      try (specialize (Hcls Clist); discriminate Hcls);
      try (specialize (Hcls Cdict); discriminate Hcls).
    reflexivity.
Qed.

(** C8, as the code has it: a call returns the inferred type when the
    interpreter has frames left for the chain of calls the value needs (one
    more than the nesting along first elements and first items), and raises
    [RecursionError] when it has fewer; the inferred type is [Any] exactly
    for the values of no tested kind. *)
Theorem infer_python_type_in_spec (frames : nat) (value : pyvalue) :
  (call_depth value <= frames ->
   infer_python_type_in frames value = Return (infer_python_type value)) /\
  (frames < call_depth value ->
   infer_python_type_in frames value
   = Raise (RuntimeError "maximum recursion depth exceeded")) /\
  (infer_python_type value = "Any"
   <-> is_None value = false /\ forall cls, isinstance value cls = false).
Proof.
  split_and!.
  - apply infer_python_type_in_frames.
  - apply infer_python_type_in_frames.
  - apply infer_python_type_Any.
Qed.

(** ** Substrings *)

Lemma startswith_app (sub post : string) : startswith (sub +:+ post) sub = true.
Proof.
  induction sub as [|c sub IH]; [reflexivity|].
  rewrite str_app_cons. simpl. by rewrite Ascii.eqb_refl.
Qed.

Lemma startswith_inv (s sub : string) :
  startswith s sub = true -> exists post, s = sub +:+ post.
Proof.
  revert s. induction sub as [|x sub IH]; intros s Hs.
  - exists s. reflexivity.
  - destruct s as [|y s]; [discriminate|]. simpl in Hs.
    apply andb_true_iff in Hs as [->%Ascii.eqb_eq Hs].
    destruct (IH s Hs) as [post ->]. exists post. reflexivity.
Qed.

Lemma str_in_here (sub s : string) : startswith s sub = true -> str_in sub s = true.
Proof. intros H. destruct s; simpl; rewrite H; reflexivity. Qed.

Lemma str_in_app (pre sub post : string) :
  str_in sub (pre +:+ sub +:+ post) = true.
Proof.
  induction pre as [|c pre IH].
  - rewrite str_app_nil_l. apply str_in_here, startswith_app.
  - rewrite str_app_cons. simpl. rewrite IH. apply orb_true_r.
Qed.

(** [sub in s] holds exactly when [s] is [pre + sub + post]. *)
Lemma str_in_spec (sub s : string) :
  str_in sub s = true <-> exists pre post, s = pre +:+ sub +:+ post.
Proof.
  split.
  - induction s as [|c s IH]; simpl; intros H.
    + rewrite orb_false_r in H. apply startswith_inv in H as [post ->].
      by exists "", post.
    + apply orb_true_iff in H as [H|H].
      * apply startswith_inv in H as [post ->]. by exists "", post.
      * destruct (IH H) as (pre & post & ->). by exists (String c pre), post.
  - intros (pre & post & ->). apply str_in_app.
Qed.

Lemma str_in_app_l (sub s post : string) :
  str_in sub s = true -> str_in sub (s +:+ post) = true.
Proof.
  intros (pre & post' & ->)%str_in_spec.
  rewrite !str_app_assoc. apply str_in_app.
Qed.

Lemma str_in_app_r (sub pre s : string) :
  str_in sub s = true -> str_in sub (pre +:+ s) = true.
Proof.
  intros (pre' & post & ->)%str_in_spec.
  rewrite <- str_app_assoc. apply str_in_app.
Qed.

(** ** The factory *)

Lemma get_builder_unknown (builder_type : string) :
  ~ In builder_type known_kinds ->
  get_builder builder_type
  = Raise (ValueError ("Unknown builder type: " +:+ builder_type)).
Proof.
  intros Hout. unfold get_builder. cbn [dict_getitem].
  repeat
    match goal with
    | |- context [String.eqb ?k builder_type] =>
        destruct (String.eqb_spec k builder_type) as [<-|_];
          [exfalso; apply Hout; simpl; tauto|]
    end.
  reflexivity.
Qed.

(** C2: [get_builder] raises exactly on the strings outside the five
    identifiers, the error is a [ValueError] whose message contains the
    identifier given, and a known identifier gets the builder of its kind. *)
Theorem get_builder_spec (kind_identifier : string) :
  ((exists exc, get_builder kind_identifier = Raise exc)
   <-> ~ In kind_identifier known_kinds) /\
  (forall exc, get_builder kind_identifier = Raise exc ->
     exists message,
       exc = ValueError message /\ str_in kind_identifier message = true) /\
  (forall builder, get_builder kind_identifier = Return builder ->
     In (kind_identifier, builder)
       [("typed_dict", TypedDictBuilder);
        ("dataclass", DataclassBuilder);
        ("pydantic", PydanticBuilder);
        ("namedtuple", NamedTupleBuilder);
        ("attrs", AttrsBuilder)]).
Proof.
  destruct (decide (kind_identifier ∈ known_kinds)) as [Hin|Hout].
  - assert (Hres : exists builder,
               get_builder kind_identifier = Return builder /\
               In (kind_identifier, builder)
                 [("typed_dict", TypedDictBuilder);
                  ("dataclass", DataclassBuilder);
                  ("pydantic", PydanticBuilder);
                  ("namedtuple", NamedTupleBuilder);
                  ("attrs", AttrsBuilder)]).
    { unfold known_kinds in Hin. rewrite !elem_of_cons in Hin.
      destruct Hin as [->|[->|[->|[->|[->|Hin]]]]];
        [eexists; split; [reflexivity | simpl; tauto]..|].
      by apply elem_of_nil in Hin. }
    destruct Hres as (builder & Heq & Htable). rewrite Heq.
    apply list_elem_of_In in Hin.
    split_and!.
    + split; [intros [? ?]; discriminate | tauto].
    + intros ? ?; discriminate.
    + by intros ? [= <-].
  - rewrite list_elem_of_In in Hout.
    rewrite (get_builder_unknown _ Hout).
    split_and!.
    + split; [done | eauto].
    + intros exc [= <-]. eexists. split; [reflexivity|].
      apply str_in_app_r, str_in_here.
      rewrite <- (str_app_nil_r kind_identifier) at 1. apply startswith_app.
    + intros ? ?; discriminate.
Qed.

(** ** Field inference *)

Lemma dict_setitem_new {V : Type} (d : list (string * V)) (key : string) (v : V) :
  key ∉ d.*1 -> dict_setitem d key v = d ++ [(key, v)].
Proof.
  induction d as [|[k w] d IH]; simpl; intros Hkey; [reflexivity|].
  apply not_elem_of_cons in Hkey as [Hne Hkey].
  destruct (String.eqb_spec k key) as [->|_]; [done|].
  by rewrite IH.
Qed.

Lemma infer_fields_loop (data : list (string * pyvalue)) (fields : list (string * string)) :
  NoDup (fields.*1 ++ data.*1) ->
  fold_left
    (fun fields '(key, value) => dict_setitem fields key (infer_python_type value))
    data fields
  = fields ++ map (fun item => (item.1, infer_python_type item.2)) data.
Proof.
  revert fields. induction data as [|[key value] data IH]; intros fields Hnd; simpl.
  - by rewrite app_nil_r.
  - simpl in Hnd. apply NoDup_app in Hnd as (Hf & Hdisj & Hd).
    apply NoDup_cons in Hd as [Hkey Hd].
    rewrite dict_setitem_new.
    2: { intros Hin. apply (Hdisj _ Hin). left. }
    rewrite IH.
    + by rewrite <- app_assoc.
    + rewrite fmap_app. simpl. rewrite <- app_assoc. simpl.
      apply NoDup_app. split_and!; [done| |by apply NoDup_cons].
      intros k Hk Hk'. apply (Hdisj k Hk). done.
Qed.

(** C6: on a dict (no key twice), the fields are the keys in insertion
    order, each with the inferred type of its value; the empty dict gives
    the empty dict; the three-field scenario. *)
Theorem infer_fields_from_json_spec (obj : list (string * pyvalue)) :
  NoDup obj.*1 ->
  infer_fields_from_json obj
  = map (fun item => (item.1, infer_python_type item.2)) obj
  /\ infer_fields_from_json [] = []
  /\ infer_fields_from_json
       [("user_id", PyInt 123); ("username", PyStr "alice"); ("is_active", PyBool true)]
     = [("user_id", "int"); ("username", "str"); ("is_active", "bool")].
Proof.
  intros Hnd. split_and!; [|reflexivity..].
  unfold infer_fields_from_json. by rewrite infer_fields_loop.
Qed.

(** ** The builders: nodes *)

Lemma annotated_body_loop (fields : list (string * string)) (nodes : list stmt) :
  fold_left
    (fun nodes '(name, typ) =>
       nodes ++ [AnnAssign (Name name Store) (Name typ Load) None 1])
    fields nodes
  = nodes ++ map field_node fields.
Proof.
  revert nodes. induction fields as [|[name typ] fields IH]; intros nodes; simpl.
  - by rewrite app_nil_r.
  - rewrite IH. by rewrite <- app_assoc.
Qed.

(** The body is [pass] alone for no field, and else one annotated assignment
    per field, in the order of the fields. *)
Lemma annotated_body_spec (fields : list (string * string)) :
  annotated_body fields
  = match fields with
    | [] => [Pass]
    | _ :: _ => map field_node fields
    end.
Proof.
  unfold annotated_body. rewrite annotated_body_loop.
  destruct fields; reflexivity.
Qed.

Lemma _build_body_nodes_spec (self : DataStructureBuilder) (class_name : string)
  (fields : list (string * string)) :
  _build_body_nodes self class_name fields = annotated_body fields.
Proof. by destruct self. Qed.

(** ** The builders: text *)

Lemma concat_empty_cons (x : string) (l : list string) :
  String.concat "" (x :: l) = x +:+ String.concat "" l.
Proof. destruct l; simpl; [by rewrite str_app_nil_r | reflexivity]. Qed.

Lemma concat_empty_app (a b : list string) :
  String.concat "" (a ++ b) = String.concat "" a +:+ String.concat "" b.
Proof.
  induction a as [|x a IH]; [reflexivity|].
  rewrite <- app_comm_cons, !concat_empty_cons, IH. by rewrite str_app_assoc.
Qed.

Lemma concat_NL_cons (x : string) (l : list string) :
  String.concat NL (x :: l) = x +:+ more_lines l.
Proof.
  revert x. induction l as [|y l IH]; intros x.
  - simpl. by rewrite str_app_nil_r.
  - change (String.concat NL (x :: y :: l)) with (x +:+ NL +:+ String.concat NL (y :: l)).
    by rewrite IH.
Qed.

Lemma more_lines_app (a b : list string) :
  more_lines (a ++ b) = more_lines a +:+ more_lines b.
Proof.
  induction a as [|x a IH]; [reflexivity|].
  simpl. rewrite IH. by rewrite !str_app_assoc.
Qed.

Lemma visit_field_node (field : string * string) (x : string) (src : list string) :
  visit_stmt (field_node field) (mkUnparser (x :: src) 1)
  = mkUnparser (x :: src ++ [NL; "    "; field.1; ": "; field.2]) 1.
Proof.
  destruct field as [name typ]. unfold field_node. simpl.
  unfold visit_AnnAssign, fill, maybe_newline, delimit_if, visit_Name, write. simpl.
  f_equal. f_equal. rewrite <- !app_assoc. reflexivity.
Qed.

Lemma visit_field_nodes (fields : list (string * string)) (x : string) (src : list string) :
  fold_left (fun self item => visit_stmt item self) (map field_node fields)
    (mkUnparser (x :: src) 1)
  = mkUnparser
      (x :: src ++ flat_map (fun field => [NL; "    "; field.1; ": "; field.2]) fields) 1.
Proof.
  revert src. induction fields as [|field fields IH]; intros src.
  - simpl. by rewrite app_nil_r.
  - cbn [map fold_left flat_map]. rewrite visit_field_node, IH.
    by rewrite <- app_assoc.
Qed.

Lemma concat_field_parts (fields : list (string * string)) :
  String.concat ""
    (flat_map (fun field => [NL; "    "; field.1; ": "; field.2]) fields)
  = more_lines (map field_line fields).
Proof.
  induction fields as [|[name typ] fields IH]; [reflexivity|].
  cbn [flat_map map more_lines foldr]. fold (more_lines (map field_line fields)).
  rewrite concat_empty_app, IH. unfold field_line. cbn [fst snd].
  rewrite !concat_empty_cons. cbn [String.concat]. by str_norm.
Qed.

(** The text [build] returns, line by line. *)
Lemma build_text (self : DataStructureBuilder) (class_name : string)
  (fields : list (string * string)) :
  build self class_name fields
  = String.concat NL (source_lines self class_name fields).
Proof.
  unfold build, unparse, module_node, class_node, source_lines.
  rewrite _build_body_nodes_spec, annotated_body_spec.
  destruct fields as [|field fields].
  - destruct self; cbn; unfold NL; by str_norm.
  - change (match field :: fields with
            | [] => [Pass]
            | _ :: _ => map field_node (field :: fields)
            end) with (map field_node (field :: fields)).
    change (body_lines (field :: fields)) with (map field_line (field :: fields)).
    generalize (field :: fields) as fs. intros fs.
    destruct self;
      cbn -[map String.concat];
      rewrite visit_field_nodes;
      cbn [_source];
      rewrite app_comm_cons, concat_empty_app, concat_field_parts;
      rewrite concat_NL_cons;
      rewrite ?concat_empty_cons;
      cbn [more_lines foldr String.concat];
      fold (more_lines (map field_line fs));
      unfold NL; by str_norm.
Qed.

(** C7: the nodes and the text of each of the five builders. *)
Theorem builders_metadata (class_name : string) (fields : list (string * string)) :
  (module_node TypedDictBuilder class_name fields
   = ast_Module
       [ImportFrom (Some "typing") [alias "TypedDict" None] 0;
        ClassDef class_name [Name "TypedDict" Load] []
          (_build_body_nodes TypedDictBuilder class_name fields) [] []]
   /\ build TypedDictBuilder class_name fields
      = String.concat NL
          ("from typing import TypedDict" :: ""
           :: ("class " +:+ class_name +:+ "(TypedDict):") :: body_lines fields)) /\
  (module_node DataclassBuilder class_name fields
   = ast_Module
       [ImportFrom (Some "dataclasses") [alias "dataclass" None] 0;
        ClassDef class_name [] []
          (_build_body_nodes DataclassBuilder class_name fields)
          [Name "dataclass" Load] []]
   /\ build DataclassBuilder class_name fields
      = String.concat NL
          ("from dataclasses import dataclass" :: "" :: "@dataclass"
           :: ("class " +:+ class_name +:+ ":") :: body_lines fields)) /\
  (module_node PydanticBuilder class_name fields
   = ast_Module
       [ImportFrom (Some "pydantic") [alias "BaseModel" None] 0;
        ClassDef class_name [Name "BaseModel" Load] []
          (_build_body_nodes PydanticBuilder class_name fields) [] []]
   /\ build PydanticBuilder class_name fields
      = String.concat NL
          ("from pydantic import BaseModel" :: ""
           :: ("class " +:+ class_name +:+ "(BaseModel):") :: body_lines fields)) /\
  (module_node NamedTupleBuilder class_name fields
   = ast_Module
       [ImportFrom (Some "typing") [alias "NamedTuple" None] 0;
        ClassDef class_name [Name "NamedTuple" Load] []
          (_build_body_nodes NamedTupleBuilder class_name fields) [] []]
   /\ build NamedTupleBuilder class_name fields
      = String.concat NL
          ("from typing import NamedTuple" :: ""
           :: ("class " +:+ class_name +:+ "(NamedTuple):") :: body_lines fields)) /\
  (module_node AttrsBuilder class_name fields
   = ast_Module
       [ImportFrom (Some "attr") [alias "define" None] 0;
        ClassDef class_name [] []
          (_build_body_nodes AttrsBuilder class_name fields)
          [Name "define" Load] []]
   /\ build AttrsBuilder class_name fields
      = String.concat NL
          ("from attr import define" :: "" :: "@define"
           :: ("class " +:+ class_name +:+ ":") :: body_lines fields)) /\
  (forall self : DataStructureBuilder,
     _build_body_nodes self class_name fields
     = match fields with
       | [] => [Pass]
       | _ :: _ =>
           map (fun field => AnnAssign (Name field.1 Store) (Name field.2 Load) None 1)
             fields
       end) /\
  body_lines fields
  = match fields with
    | [] => ["    pass"]
    | _ :: _ => map (fun field => "    " +:+ field.1 +:+ ": " +:+ field.2) fields
    end.
Proof.
  split_and!; try reflexivity; try apply build_text.
  intros self. rewrite _build_body_nodes_spec. apply annotated_body_spec.
Qed.

(** C9: with no field, the body of the class is the single statement
    [pass], in the node and in the text, for every builder and class name. *)
Theorem build_empty_fields (self : DataStructureBuilder) (class_name : string) :
  _build_body_nodes self class_name [] = [Pass] /\
  class_node self class_name []
  = ClassDef class_name (_build_bases self class_name (@nil (string * string))) []
      [Pass] (_build_decorators self class_name (@nil (string * string))) [] /\
  build self class_name []
  = String.concat NL
      ([import_line self; ""] ++ decorator_lines self
         ++ [class_header self class_name; "    pass"]).
Proof.
  split_and!.
  - by destruct self.
  - by destruct self.
  - apply build_text.
Qed.

(** ** Every field line is in the text *)

Lemma str_in_more_lines (sub line : string) (lines : list string) :
  In line lines -> str_in sub line = true -> str_in sub (more_lines lines) = true.
Proof.
  induction lines as [|l lines IH]; intros Hin Hsub; [destruct Hin|].
  cbn [more_lines foldr]. fold (more_lines lines).
  destruct Hin as [->|Hin].
  - apply str_in_app_r, str_in_app_l, Hsub.
  - rewrite <- str_app_assoc. apply str_in_app_r. by apply IH.
Qed.

Lemma str_in_concat_NL (sub line : string) (lines : list string) :
  In line lines -> str_in sub line = true -> str_in sub (String.concat NL lines) = true.
Proof.
  destruct lines as [|x lines]; [intros []|]. intros Hin Hsub.
  rewrite concat_NL_cons. destruct Hin as [->|Hin].
  - by apply str_in_app_l.
  - apply str_in_app_r. by apply (str_in_more_lines sub line).
Qed.


(** ** Scanning *)

Lemma id_continue_char (c : ascii) :
  is_id_continue c = true ->
  is_space c = false /\ is_newline c = false /\ ends_expr (String c "") = false
  /\ Ascii.eqb c "[" = false.
Proof.
  destruct c as [[] [] [] [] [] [] [] []]; vm_compute; intros H;
    try discriminate H; auto.
Qed.

Lemma str_forallb_app (p : ascii -> bool) (a b : string) :
  str_forallb p (a +:+ b) = str_forallb p a && str_forallb p b.
Proof.
  induction a as [|c a IH]; [reflexivity|].
  rewrite str_app_cons. simpl. rewrite IH. by rewrite andb_assoc.
Qed.

Lemma span_app_all (p : ascii -> bool) (a rest : string) :
  str_forallb p a = true ->
  match rest with EmptyString => true | String c _ => negb (p c) end = true ->
  span p (a +:+ rest) = (a, rest).
Proof.
  intros Ha Hrest. induction a as [|c a IH].
  - rewrite str_app_nil_l. destruct rest as [|c rest]; [reflexivity|].
    simpl. apply negb_true_iff in Hrest. by rewrite Hrest.
  - rewrite str_app_cons. simpl in *. apply andb_true_iff in Ha as [Hc Ha].
    by rewrite Hc, (IH Ha).
Qed.

Lemma skip_spaces_space (s : string) : skip_spaces (String " " s) = skip_spaces s.
Proof. unfold skip_spaces. simpl. by destruct (span is_space s). Qed.

Lemma skip_spaces_word (w rest : string) :
  is_word w = true -> skip_spaces (w +:+ rest) = w +:+ rest.
Proof.
  destruct w as [|c w]; [discriminate|]. simpl. intros [Hc _]%andb_true_iff.
  apply id_continue_char in Hc as (Hc & _).
  rewrite str_app_cons. unfold skip_spaces. simpl. by rewrite Hc.
Qed.

Lemma scan_word_space (s : string) : scan_word (String " " s) = scan_word s.
Proof. unfold scan_word. by rewrite skip_spaces_space. Qed.

Lemma scan_word_app (w rest : string) :
  is_word w = true -> stops_word rest = true -> scan_word (w +:+ rest) = (w, rest).
Proof.
  intros Hw Hrest. unfold scan_word. rewrite skip_spaces_word by done.
  apply span_app_all; [by destruct w | exact Hrest].
Qed.

Lemma is_NAME_word (w : string) : is_NAME w = true -> is_word w = true.
Proof.
  destruct w as [|c w]; [discriminate|]. cbn [is_NAME is_word str_forallb].
  intros [[Hc Hw]%andb_true_iff _]%andb_true_iff.
  apply andb_true_iff. split; [|exact Hw].
  unfold is_id_continue. by rewrite Hc.
Qed.

Lemma scan_keyword_app (kw rest : string) :
  is_word kw = true -> stops_word rest = true ->
  scan_keyword kw (kw +:+ rest) = Some rest.
Proof.
  intros Hkw Hrest. unfold scan_keyword. rewrite scan_word_app by done.
  by rewrite String.eqb_refl.
Qed.



Lemma scan_atom_app (w rest : string) :
  is_NAME w = true \/ w = "None" -> stops_word rest = true ->
  scan_atom (w +:+ rest) = Some rest.
Proof.
  intros Hw Hrest. unfold scan_atom.
  rewrite scan_word_app; [|by destruct Hw as [?%is_NAME_word | ->]|done].
  destruct Hw as [-> | ->]; reflexivity.
Qed.

Lemma scan_atom_space (s : string) : scan_atom (String " " s) = scan_atom s.
Proof. unfold scan_atom. by rewrite scan_word_space. Qed.

Lemma parse_expr_space (fuel level : nat) (s : string) :
  parse_expr fuel level (String " " s) = parse_expr fuel level s.
Proof.
  destruct fuel; [reflexivity|]. cbn [parse_expr]. by rewrite scan_atom_space.
Qed.


Lemma ends_expr_stops (rest : string) : ends_expr rest = true -> stops_word rest = true.
Proof.
  destruct rest as [|c rest]; [done|]. simpl. intros Hc.
  destruct (is_id_continue c) eqn:Hid; [|reflexivity].
  apply id_continue_char in Hid as (_ & _ & Hid & _). simpl in Hid. congruence.
Qed.

Lemma ends_expr_no_subscript (rest : string) :
  ends_expr rest = true -> scan_op "[" rest = None.
Proof.
  destruct rest as [|c rest]; [reflexivity|]. 
  destruct c as [[] [] [] [] [] [] [] []]; vm_compute; intros H;
    try discriminate H; reflexivity.
Qed.

(** ** Annotations are read back *)

Lemma parse_expr_atom (fuel level : nat) (w rest : string) :
  is_NAME w = true \/ w = "None" -> ends_expr rest = true ->
  parse_expr (S fuel) level (w +:+ rest) = Some rest.
Proof.
  intros Hw Hrest. cbn [parse_expr].
  rewrite scan_atom_app by (by try apply ends_expr_stops).
  by rewrite ends_expr_no_subscript.
Qed.

Lemma parse_expr_subscript (fuel level : nat) (id rest : string) :
  is_NAME id = true ->
  parse_expr (S fuel) level (id +:+ "[" +:+ rest)
  = if MAXLEVEL <=? level then None
    else
      match parse_expr fuel (S level) rest with
      | Some r => parse_slices fuel (S level) r
      | None => None
      end.
Proof.
  intros Hid. cbn [parse_expr]. rewrite scan_atom_app; [|by left|reflexivity].
  reflexivity.
Qed.

Lemma parse_slices_close (fuel level : nat) (rest : string) :
  parse_slices (S fuel) level ("]" +:+ rest) = Some rest.
Proof. reflexivity. Qed.

Lemma parse_slices_comma (fuel level : nat) (rest : string) :
  parse_slices (S fuel) level (", " +:+ rest)
  = match parse_expr fuel level rest with
    | Some r => parse_slices fuel level r
    | None => None
    end.
Proof.
  change (parse_slices (S fuel) level (", " +:+ rest))
    with (match parse_expr fuel level (String " " rest) with
          | Some r => parse_slices fuel level r
          | None => None
          end).
  by rewrite parse_expr_space.
Qed.

(** An annotation expression whose brackets, with the [level] already open,
    stay within [MAXLEVEL] is read whole. *)
Lemma parse_type_expr :
  (forall n t, type_expr n t ->
     forall fuel level rest,
       String.length t < fuel -> level + n <= MAXLEVEL -> ends_expr rest = true ->
       parse_expr fuel level (t +:+ rest) = Some rest) /\
  (forall n args, type_args n args ->
     forall fuel level rest,
       String.length args + 1 < fuel -> level + n <= MAXLEVEL ->
       match parse_expr fuel level (args +:+ "]" +:+ rest) with
       | Some r => parse_slices fuel level r
       | None => None
       end = Some rest).
Proof.
  apply type_expr_args_ind.
  - intros n id Hid [|fuel] level rest Hlen _ Hrest; [lia|].
    apply parse_expr_atom; auto.
  - intros n [|fuel] level rest Hlen _ Hrest; [lia|].
    apply parse_expr_atom; auto.
  - intros n id args Hid _ IH [|fuel] level rest Hlen Hlevel Hrest; [lia|].
    rewrite !str_app_assoc, parse_expr_subscript by done.
    destruct (Nat.leb_spec MAXLEVEL level) as [Hmax|_]; [lia|].
    apply IH; [|lia]. rewrite !str_length_app in Hlen. simpl in Hlen. lia.
  - intros n a _ IH fuel level rest Hlen Hlevel.
    rewrite IH; [|lia|done|reflexivity].
    destruct fuel as [|fuel]; [lia|]. apply parse_slices_close.
  - intros n a args _ IHa _ IHargs fuel level rest Hlen Hlevel.
    rewrite !str_length_app in Hlen. simpl in Hlen.
    rewrite !str_app_assoc, IHa; [|lia|done|reflexivity].
    destruct fuel as [|fuel]; [lia|]. rewrite parse_slices_comma.
    apply IHargs; [lia|done].
Qed.


Lemma str_forallb_impl (p q : ascii -> bool) (s : string) :
  (forall c, p c = true -> q c = true) ->
  str_forallb p s = true -> str_forallb q s = true.
Proof.
  intros Hpq. induction s as [|c s IH]; [done|]. simpl.
  intros [Hc Hs]%andb_true_iff. by rewrite (Hpq c Hc), (IH Hs).
Qed.

Lemma is_NAME_no_newline (w : string) : is_NAME w = true -> no_newline w = true.
Proof.
  intros Hw%is_NAME_word. destruct w as [|c w]; [done|].
  cbn [is_word] in Hw. revert Hw. apply str_forallb_impl.
  intros c' Hc'. apply id_continue_char in Hc' as (_ & -> & _). reflexivity.
Qed.

Lemma no_newline_app (a b : string) :
  no_newline (a +:+ b) = no_newline a && no_newline b.
Proof. apply str_forallb_app. Qed.

Lemma type_expr_no_newline :
  (forall n t, type_expr n t -> no_newline t = true) /\
  (forall n args, type_args n args -> no_newline args = true).
Proof.
  apply type_expr_args_ind.
  - intros n. apply is_NAME_no_newline.
  - reflexivity.
  - intros n id args Hid%is_NAME_no_newline _ Hargs.
    rewrite !no_newline_app, Hid, Hargs. reflexivity.
  - auto.
  - intros n a args _ Ha _ Hargs. rewrite !no_newline_app, Ha, Hargs. reflexivity.
Qed.

(** ** Lines of the text are statements *)









Lemma logical_line_word (w rest : string) :
  is_word w = true -> logical_line (w +:+ rest) = Some (0, w +:+ rest).
Proof.
  destruct w as [|c w]; [discriminate|]. cbn [is_word str_forallb].
  intros [Hc _]%andb_true_iff. apply id_continue_char in Hc as (Hc & _).
  rewrite str_app_cons. unfold logical_line. simpl. by rewrite Hc.
Qed.


Lemma split_lines_line (x : string) : no_newline x = true -> split_lines x = [x].
Proof.
  induction x as [|c x IH]; [reflexivity|]. simpl.
  intros [Hc Hx]%andb_true_iff. apply negb_true_iff in Hc.
  by rewrite Hc, (IH Hx).
Qed.

Lemma split_lines_cons (x s : string) :
  no_newline x = true -> split_lines (x +:+ NL +:+ s) = x :: split_lines s.
Proof.
  induction x as [|c x IH].
  - reflexivity.
  - intros H. cbn [no_newline str_forallb] in H.
    apply andb_true_iff in H as [Hc Hx]. apply negb_true_iff in Hc.
    rewrite str_app_cons. cbn [split_lines]. by rewrite Hc, (IH Hx).
Qed.

Lemma split_lines_concat (x : string) (lines : list string) :
  Forall (fun line => no_newline line = true) (x :: lines) ->
  split_lines (String.concat NL (x :: lines)) = x :: lines.
Proof.
  rewrite concat_NL_cons. revert x.
  induction lines as [|y lines IH]; intros x Hall.
  - cbn [more_lines foldr]. rewrite str_app_nil_r.
    apply split_lines_line. by inversion Hall.
  - cbn [more_lines foldr]. fold (more_lines lines).
    apply Forall_cons in Hall as [Hx Hall].
    rewrite split_lines_cons by done. f_equal. by apply IH.
Qed.


(** ** The text of [build] is read back *)










(** ** The store: what the loops do *)

Lemma bind_return {A B : Type} (m : Py A) (f : A -> Py B) (st st' : gmap loc object) (a : A) :
  m st = Return (a, st') -> (m ≫= f) st = f a st'.
Proof. intros H. unfold mbind, Py_bind. by rewrite H. Qed.

Lemma read_return {A : Type} (view : object -> option A) (l : loc)
  (st : gmap loc object) (o : object) (a : A) :
  st !! l = Some o -> view o = Some a -> read view l st = Return (a, st).
Proof. intros Hl Hview. unfold read. rewrite Hl. simpl. by rewrite Hview. Qed.

(** A loop over the items of [d] whose body keeps [d] as it is, seen as a
    fold: [state_of s] is the store when the loop variable of the fold is
    [s]. *)
Lemma iterate_fold {V S : Type} (view : object -> option (list (string * V)))
  (d : loc) (items : list (string * V)) (body : string -> V -> Py unit)
  (state_of : S -> gmap loc object) (step : S -> string -> V -> S) :
  (forall s, exists o, state_of s !! d = Some o /\ view o = Some items) ->
  (forall s key value,
     body key value (state_of s) = Return (tt, state_of (step s key value))) ->
  forall n i s,
    i + n = List.length items ->
    iterate view d (List.length items) i n body (state_of s)
    = Return (tt, state_of
                    (fold_left (fun s '(key, value) => step s key value)
                       (drop i items) s)).
Proof.
  intros Hd Hbody. induction n as [|n IH]; intros i s Hlen.
  - rewrite drop_ge by lia. reflexivity.
  - cbn [iterate]. destruct (Hd s) as (o & Ho & Hview).
    rewrite (bind_return _ _ _ _ _ (read_return _ _ _ _ _ Ho Hview)).
    rewrite Nat.eqb_refl. cbn [negb].
    destruct (lookup_lt_is_Some_2 items i) as [[key value] Hi]; [lia|].
    rewrite Hi. rewrite (bind_return _ _ _ _ _ (Hbody s key value)).
    rewrite IH by lia. by rewrite (drop_S _ _ _ Hi).
Qed.

Lemma for_items_fold {V S : Type} (view : object -> option (list (string * V)))
  (d : loc) (items : list (string * V)) (body : string -> V -> Py unit)
  (state_of : S -> gmap loc object) (step : S -> string -> V -> S) (s : S) :
  (forall s, exists o, state_of s !! d = Some o /\ view o = Some items) ->
  (forall s key value,
     body key value (state_of s) = Return (tt, state_of (step s key value))) ->
  for_items view d body (state_of s)
  = Return (tt, state_of
                  (fold_left (fun s '(key, value) => step s key value) items s)).
Proof.
  intros Hd Hbody. unfold for_items. destruct (Hd s) as (o & Ho & Hview).
  rewrite (bind_return _ _ _ _ _ (read_return _ _ _ _ _ Ho Hview)).
  by rewrite (iterate_fold view d items body state_of step Hd Hbody).
Qed.

Lemma fresh_lookup (st : gmap loc object) : st !! fresh (dom st) = None.
Proof. apply not_elem_of_dom, is_fresh. Qed.

Lemma fresh_ne (st : gmap loc object) (l : loc) (o : object) :
  st !! l = Some o -> fresh (dom st) <> l.
Proof. intros Hl Heq. rewrite <- Heq, fresh_lookup in Hl. discriminate. Qed.

(** [infer_fields_from_json] on the store: the result is a new dict with the
    items the function on items computes, and nothing else changes. *)
Lemma setitem_return (fields : loc) (key v : string) (acc : list (string * string))
  (st : gmap loc object) :
  setitem fields key v (<[fields := FieldDict acc]> st)
  = Return (tt, <[fields := FieldDict (dict_setitem acc key v)]> st).
Proof.
  unfold setitem.
  rewrite (bind_return _ _ _ _ acc
             (read_return field_items fields _ (FieldDict acc) acc
                (lookup_insert_eq _ _ _) eq_refl)).
  unfold store_object. by rewrite insert_insert_eq.
Qed.

Lemma append_return (nodes : loc) (node : stmt) (acc : list stmt)
  (st : gmap loc object) :
  append nodes node (<[nodes := NodeList acc]> st)
  = Return (tt, <[nodes := NodeList (acc ++ [node])]> st).
Proof.
  unfold append.
  rewrite (bind_return _ _ _ _ acc
             (read_return node_items nodes _ (NodeList acc) acc
                (lookup_insert_eq _ _ _) eq_refl)).
  unfold store_object. by rewrite insert_insert_eq.
Qed.

Lemma infer_fields_from_json_st_spec (data : loc) (items : list (string * pyvalue))
  (st : gmap loc object) :
  st !! data = Some (JsonDict items) ->
  infer_fields_from_json_st data st
  = Return (fresh (dom st),
            <[fresh (dom st) := FieldDict (infer_fields_from_json items)]> st).
Proof.
  intros Hdata. unfold infer_fields_from_json_st.
  set (fields := fresh (dom st)).
  assert (Hne : fields <> data) by (by eapply fresh_ne).
  rewrite (bind_return _ _ st (<[fields := FieldDict []]> st) fields) by reflexivity.
  assert (Hloop :
    for_items json_items data
      (fun key value => setitem fields key (infer_python_type value))
      (<[fields := FieldDict []]> st)
    = Return (tt, <[fields := FieldDict (infer_fields_from_json items)]> st)).
  { apply (for_items_fold json_items data items _
             (fun acc => <[fields := FieldDict acc]> st)
             (fun acc key value => dict_setitem acc key (infer_python_type value))
             []).
    - intros acc. exists (JsonDict items). by rewrite lookup_insert_ne.
    - intros acc key value. apply setitem_return. }
  by rewrite (bind_return _ _ _ _ _ Hloop).
Qed.

(** The body method on the store: the result is a new list with the nodes
    the function on items computes, and nothing else changes. *)
Lemma annotated_body_st_spec (fields : loc) (items : list (string * string))
  (st : gmap loc object) :
  st !! fields = Some (FieldDict items) ->
  annotated_body_st fields st
  = Return (fresh (dom st),
            <[fresh (dom st) := NodeList (annotated_body items)]> st).
Proof.
  intros Hfields. unfold annotated_body_st.
  set (nodes := fresh (dom st)).
  assert (Hne : nodes <> fields) by (by eapply fresh_ne).
  rewrite (bind_return _ _ st (<[nodes := NodeList []]> st) nodes) by reflexivity.
  set (acc := fold_left
                (fun nodes '(name, typ) =>
                   nodes ++ [AnnAssign (Name name Store) (Name typ Load) None 1])
                items []).
  assert (Hloop :
    for_items field_items fields
      (fun name typ =>
         append nodes (AnnAssign (Name name Store) (Name typ Load) None 1))
      (<[nodes := NodeList []]> st)
    = Return (tt, <[nodes := NodeList acc]> st)).
  { apply (for_items_fold field_items fields items _
             (fun acc => <[nodes := NodeList acc]> st)
             (fun acc name typ =>
                acc ++ [AnnAssign (Name name Store) (Name typ Load) None 1])
             []).
    - intros acc'. exists (FieldDict items). by rewrite lookup_insert_ne.
    - intros acc' name typ. apply append_return. }
  rewrite (bind_return _ _ _ _ _ Hloop).
  rewrite (bind_return _ _ _ _ acc
             (read_return node_items nodes _ (NodeList acc) acc
                (lookup_insert_eq _ _ _) eq_refl)).
  unfold annotated_body. fold acc. destruct acc as [|node acc'].
  - by rewrite (bind_return _ _ _ _ _ (append_return nodes Pass [] st)).
  - reflexivity.
Qed.

(** [build] on the store returns the text of [build] on the items; the only
    change of the store is the new list of body nodes. *)
Lemma build_st_spec (self : DataStructureBuilder) (class_name : string)
  (fields : loc) (items : list (string * string)) (st : gmap loc object) :
  st !! fields = Some (FieldDict items) ->
  build_st self class_name fields st
  = Return (build self class_name items,
            <[fresh (dom st) := NodeList (annotated_body items)]> st).
Proof.
  intros Hfields. unfold build_st.
  assert (Hbody : _build_body_nodes_st self class_name fields st
                  = Return (fresh (dom st),
                            <[fresh (dom st) := NodeList (annotated_body items)]> st)).
  { destruct self; by apply annotated_body_st_spec. }
  rewrite (bind_return _ _ _ _ _ Hbody).
  rewrite (bind_return _ _ _ _ (annotated_body items)
             (read_return node_items _ _ (NodeList (annotated_body items)) _
                (lookup_insert_eq _ _ _) eq_refl)).
  unfold build, module_node, class_node. rewrite _build_body_nodes_spec.
  by destruct self.
Qed.

(** C10: neither function changes its argument: after either call, the dict
    passed holds the items it held, in their order, and so does every
    object the store had. *)
Theorem arguments_not_mutated (st : gmap loc object) (fields data : loc)
  (field_items_before : list (string * string))
  (data_items_before : list (string * pyvalue))
  (self : DataStructureBuilder) (class_name : string) :
  st !! fields = Some (FieldDict field_items_before) ->
  st !! data = Some (JsonDict data_items_before) ->
  (exists text st',
     build_st self class_name fields st = Return (text, st') /\
     text = build self class_name field_items_before /\
     st' !! fields = Some (FieldDict field_items_before) /\
     forall l o, st !! l = Some o -> st' !! l = Some o) /\
  (exists result st',
     infer_fields_from_json_st data st = Return (result, st') /\
     st' !! result = Some (FieldDict (infer_fields_from_json data_items_before)) /\
     st' !! data = Some (JsonDict data_items_before) /\
     forall l o, st !! l = Some o -> st' !! l = Some o).
Proof.
  intros Hfields Hdata.
  assert (Hframe : forall (o' : object) l o,
            st !! l = Some o -> <[fresh (dom st) := o']> st !! l = Some o).
  { intros o' l o Hl. rewrite lookup_insert_ne; [done|]. by eapply fresh_ne. }
  split.
  - eexists _, _. split; [by apply build_st_spec|]. split_and!; eauto.
  - eexists _, _. split; [by apply infer_fields_from_json_st_spec|].
    split_and!; eauto. by rewrite lookup_insert_eq.
Qed.

(** ** Instances *)



Lemma get_builder_spec_witness :
  get_builder "invalid" = Raise (ValueError "Unknown builder type: invalid") /\
  str_in "invalid" "Unknown builder type: invalid" = true /\
  get_builder "attrs" = Return AttrsBuilder.
Proof.
  split; [reflexivity|]. split; [|reflexivity].
  destruct (proj1 (proj2 (get_builder_spec "invalid"))
              (ValueError "Unknown builder type: invalid") eq_refl)
    as (message & Hmessage & Hin).
  inversion Hmessage; subst message. exact Hin.
Defined.

Lemma infer_python_type_list_witness :
  [PyInt 1; PyStr "a"] !! 0 = Some (PyInt 1) /\
  infer_python_type (PyList [PyInt 1; PyStr "a"]) = "list[int]".
Proof.
  split; [reflexivity|].
  apply (proj2 infer_python_type_list [PyInt 1; PyStr "a"] (PyInt 1)).
  reflexivity.
Defined.

Lemma infer_python_type_bool_witness :
  isinstance (PyBool true) Cbool = true /\
  infer_python_type (PyBool true) = "bool" /\
  infer_python_type (PyBool true) <> "int" /\
  isinstance (PyBool true) Cint = true.
Proof.
  split; [reflexivity|]. apply (infer_python_type_bool (PyBool true)). reflexivity.
Defined.

Lemma infer_fields_from_json_spec_witness :
  NoDup ["user_id"; "username"; "is_active"] /\
  infer_fields_from_json
    [("user_id", PyInt 123); ("username", PyStr "alice"); ("is_active", PyBool true)]
  = [("user_id", "int"); ("username", "str"); ("is_active", "bool")].
Proof.
  assert (Hnd : NoDup ["user_id"; "username"; "is_active"]).
  { apply (bool_decide_unpack _). vm_compute. reflexivity. }
  split; [exact Hnd|].
  apply (proj1 (infer_fields_from_json_spec
                  [("user_id", PyInt 123); ("username", PyStr "alice");
                   ("is_active", PyBool true)] Hnd)).
Defined.

(** C8, as stated, fails: on an interpreter with 1000 frames, [None] inside
    1000 lists makes the call raise. *)
Lemma infer_python_type_recursion_error :
  call_depth (nested_list 1000 PyNone) = 1001 /\
  infer_python_type_in 1000 (nested_list 1000 PyNone)
  = Raise (RuntimeError "maximum recursion depth exceeded").
Proof. split; vm_compute; reflexivity. Qed.

Lemma infer_python_type_in_spec_witness :
  (call_depth (PyList [PyList [PyInt 1]]) <= 3 /\
   infer_python_type_in 3 (PyList [PyList [PyInt 1]]) = Return "list[list[int]]") /\
  (2 < call_depth (PyList [PyList [PyInt 1]]) /\
   infer_python_type_in 2 (PyList [PyList [PyInt 1]])
   = Raise (RuntimeError "maximum recursion depth exceeded")) /\
  ((is_None (PyObject "object") = false /\
    forall cls, isinstance (PyObject "object") cls = false) /\
   infer_python_type (PyObject "object") = "Any").
Proof.
  assert (H3 : call_depth (PyList [PyList [PyInt 1]]) <= 3) by (simpl; lia).
  assert (H2 : 2 < call_depth (PyList [PyList [PyInt 1]])) by (simpl; lia).
  assert (HAny : is_None (PyObject "object") = false /\
                 forall cls, isinstance (PyObject "object") cls = false)
    by (split; reflexivity).
  split; [|split].
  - split; [exact H3|].
    exact (proj1 (infer_python_type_in_spec 3 (PyList [PyList [PyInt 1]])) H3).
  - split; [exact H2|].
    exact (proj1 (proj2 (infer_python_type_in_spec 2 (PyList [PyList [PyInt 1]]))) H2).
  - split; [exact HAny|].
    exact (proj2 (proj2 (proj2 (infer_python_type_in_spec 0 (PyObject "object")))) HAny).
Defined.

Lemma arguments_not_mutated_witness :
  example_store !! 1%positive = Some (FieldDict [("id", "int"); ("name", "str")]) /\
  example_store !! 2%positive
  = Some (JsonDict [("user_id", PyInt 123); ("tags", PyList [PyStr "a"])]) /\
  (exists text st',
     build_st AttrsBuilder "User" 1%positive example_store = Return (text, st') /\
     st' !! 1%positive = Some (FieldDict [("id", "int"); ("name", "str")])) /\
  (exists result st',
     infer_fields_from_json_st 2%positive example_store = Return (result, st') /\
     st' !! 2%positive
     = Some (JsonDict [("user_id", PyInt 123); ("tags", PyList [PyStr "a"])])).
Proof.
  assert (H1 : example_store !! 1%positive
               = Some (FieldDict [("id", "int"); ("name", "str")]))
    by (vm_compute; reflexivity).
  assert (H2 : example_store !! 2%positive
               = Some (JsonDict [("user_id", PyInt 123); ("tags", PyList [PyStr "a"])]))
    by (vm_compute; reflexivity).
  split; [exact H1|]. split; [exact H2|].
  destruct (arguments_not_mutated example_store 1%positive 2%positive _ _
              AttrsBuilder "User" H1 H2)
    as [(text & st1 & Hb & _ & Hf & _) (result & st2 & Hi & _ & Hd & _)].
  split; [exists text, st1 | exists result, st2]; split; assumption.
Defined.

(** * Further properties *)

(** ** Inferred types *)

Lemma parse_inferred_ok (value : pyvalue) (fuel level : nat) (rest : string) :
  String.length (infer_python_type value) < fuel ->
  level + type_nesting value <= MAXLEVEL -> ends_expr rest = true ->
  parse_expr fuel level (infer_python_type value +:+ rest) = Some rest.
Proof.
  intros Hfuel Hlevel Hrest.
  apply (proj1 parse_type_expr (type_nesting value)); try done.
  apply infer_python_type_type_expr.
Qed.

(** An inferred type whose brackets, with the [level] already open, pass
    [MAXLEVEL] is refused. *)
Lemma parse_inferred_too_deep (value : pyvalue) :
  forall fuel level rest,
    String.length (infer_python_type value) < fuel ->
    level <= MAXLEVEL -> MAXLEVEL < level + type_nesting value ->
    ends_expr rest = true ->
    parse_expr fuel level (infer_python_type value +:+ rest) = None.
Proof.
  induction value as [ | b | n | x | s | elems IH | items IH | c]
    using pyvalue_nested_ind;
    try (intros fuel level rest _ Hlevel Hdeep _; cbn [type_nesting] in Hdeep; lia).
  - destruct IH as [|first others IHfirst _];
      intros [|fuel] level rest Hfuel Hlevel Hdeep Hrest; try (simpl in Hfuel; lia).
    + change (infer_python_type (PyList []) +:+ rest)
        with ("list" +:+ "[" +:+ ("Any]" +:+ rest)).
      rewrite parse_expr_subscript by reflexivity. cbn [type_nesting] in Hdeep.
      destruct (Nat.leb_spec MAXLEVEL level) as [_|Hlt]; [reflexivity | lia].
    + rewrite infer_python_type_list_cons in *. cbn [type_nesting] in Hdeep.
      replace (("list[" +:+ infer_python_type first +:+ "]") +:+ rest)
        with ("list" +:+ "[" +:+ (infer_python_type first +:+ "]" +:+ rest))
        by (by str_norm).
      rewrite parse_expr_subscript by reflexivity.
      destruct (Nat.leb_spec MAXLEVEL level) as [_|Hlt]; [reflexivity|].
      rewrite IHfirst; [reflexivity| |lia|lia|reflexivity].
      rewrite !str_length_app in Hfuel. simpl in Hfuel. lia.
  - destruct IH as [|[k v] others [IHk IHv] _];
      intros [|fuel] level rest Hfuel Hlevel Hdeep Hrest; try (simpl in Hfuel; lia).
    + change (infer_python_type (PyDict []) +:+ rest)
        with ("dict" +:+ "[" +:+ ("str, Any]" +:+ rest)).
      rewrite parse_expr_subscript by reflexivity. cbn [type_nesting] in Hdeep.
      destruct (Nat.leb_spec MAXLEVEL level) as [_|Hlt]; [reflexivity | lia].
    + cbn [fst snd] in IHk, IHv.
      rewrite infer_python_type_dict_cons in *. cbn [type_nesting] in Hdeep.
      rewrite !str_length_app in Hfuel. simpl in Hfuel.
      replace (("dict[" +:+ infer_python_type k +:+ ", " +:+ infer_python_type v +:+ "]")
                 +:+ rest)
        with ("dict" +:+ "["
                +:+ (infer_python_type k
                       +:+ ", " +:+ (infer_python_type v +:+ "]" +:+ rest)))
        by (by str_norm).
      rewrite parse_expr_subscript by reflexivity.
      destruct (Nat.leb_spec MAXLEVEL level) as [_|Hlt]; [reflexivity|].
      destruct (Nat.le_gt_cases (S level + type_nesting k) MAXLEVEL) as [Hk|Hk].
      * rewrite parse_inferred_ok; [|lia|done|reflexivity].
        destruct fuel as [|fuel]; [lia|]. rewrite parse_slices_comma.
        rewrite IHv; [reflexivity|lia|lia|lia|reflexivity].
      * rewrite IHk; [reflexivity|lia|lia|lia|reflexivity].
Qed.

(** X5: the inferred type of a value is accepted as an annotation by the
    grammar exactly when its brackets nest at most [MAXLEVEL] deep, and it
    always sits on one line. *)
Theorem infer_python_type_is_annotation (value : pyvalue) :
  is_annotation (infer_python_type value) = (type_nesting value <=? MAXLEVEL) /\
  no_newline (infer_python_type value) = true.
Proof.
  split.
  - unfold is_annotation.
    rewrite <- (str_app_nil_r (infer_python_type value)) at 2.
    destruct (Nat.leb_spec (type_nesting value) MAXLEVEL) as [Hle|Hgt].
    + rewrite parse_inferred_ok; [reflexivity|lia|done|reflexivity].
    + rewrite parse_inferred_too_deep; [reflexivity|lia|unfold MAXLEVEL; lia|done|reflexivity].
  - apply (proj1 type_expr_no_newline _ _ (infer_python_type_type_expr value)).
Qed.

Lemma isinstance_str_inv (value : pyvalue) :
  isinstance value Cstr = true -> exists s, value = PyStr s.
Proof. destruct value; simpl; try discriminate. eauto. Qed.

(** X6: for a value decoded from JSON the fallback [Any] is never the inferred
    type, and the type of a non-empty object names [str] as the key type. *)
Theorem infer_python_type_json (value : pyvalue) :
  is_json value = true ->
  infer_python_type value <> "Any" /\
  (forall item items, value = PyDict (item :: items) ->
     infer_python_type value
     = "dict[str, " +:+ infer_python_type item.2 +:+ "]").
Proof.
  intros Hjson. split.
  - destruct value as [ | b | n | x | s | elems | items | c]; try discriminate.
    + destruct elems as [|first rest]; [discriminate|].
      rewrite infer_python_type_list_cons. discriminate.
    + destruct items as [|[k v] rest]; [discriminate|].
      rewrite infer_python_type_dict_cons. discriminate.
  - intros [k v] items ->. cbn [is_json forallb fst snd] in Hjson.
    apply andb_true_iff in Hjson as [[Hk _]%andb_true_iff _].
    apply isinstance_str_inv in Hk as [s ->]. reflexivity.
Qed.

Lemma infer_python_type_json_witness :
  is_json (PyDict [(PyStr "a", PyList []); (PyStr "b", PyInt 1)]) = true /\
  infer_python_type (PyDict [(PyStr "a", PyList []); (PyStr "b", PyInt 1)]) <> "Any" /\
  infer_python_type (PyDict [(PyStr "a", PyList []); (PyStr "b", PyInt 1)])
  = "dict[str, list[Any]]".
Proof.
  split; [reflexivity|].
  destruct (infer_python_type_json
              (PyDict [(PyStr "a", PyList []); (PyStr "b", PyInt 1)]) eq_refl)
    as [Hany Hdict].
  split; [exact Hany|].
  exact (Hdict (PyStr "a", PyList []) [(PyStr "b", PyInt 1)] eq_refl).
Defined.

(** ** Fields by key *)

Lemma dict_getitem_map {V W : Type} (f : V -> W) (d : list (string * V)) (key : string) :
  dict_getitem (map (fun item => (item.1, f item.2)) d) key
  = match dict_getitem d key with
    | Return v => Return (f v)
    | Raise exc => Raise exc
    end.
Proof.
  induction d as [|[k v] d IH]; [reflexivity|].
  cbn [map dict_getitem fst snd]. by destruct (String.eqb k key).
Qed.

Lemma dict_getitem_missing {V : Type} (d : list (string * V)) (key : string) :
  key ∉ d.*1 <-> dict_getitem d key = Raise (KeyError key).
Proof.
  induction d as [|[k v] d IH]; cbn [dict_getitem fmap list_fmap fst].
  - split; [done | intros _; apply not_elem_of_nil].
  - rewrite not_elem_of_cons. destruct (String.eqb_spec k key) as [->|Hne].
    + split; [by intros [? _] | discriminate].
    + rewrite <- IH. split; [by intros [_ ?] | by split].
Qed.

(** X4: [fields[key]] after [infer_fields_from_json(data)]: the inferred type of
    [data[key]], and [KeyError] exactly for the keys [data] does not have. *)
Theorem infer_fields_from_json_getitem (data : list (string * pyvalue)) (key : string) :
  NoDup data.*1 ->
  dict_getitem (infer_fields_from_json data) key
  = match dict_getitem data key with
    | Return value => Return (infer_python_type value)
    | Raise exc => Raise exc
    end /\
  (key ∉ data.*1 <->
   dict_getitem (infer_fields_from_json data) key = Raise (KeyError key)).
Proof.
  intros Hnd. unfold infer_fields_from_json.
  rewrite infer_fields_loop by done. cbn [app].
  rewrite dict_getitem_map. split; [reflexivity|].
  rewrite dict_getitem_missing.
  destruct (dict_getitem data key) as [v|exc]; split; congruence.
Qed.

Lemma infer_fields_from_json_getitem_witness :
  NoDup [("id", PyInt 1); ("tags", PyList [PyStr "x"])].*1 /\
  dict_getitem
    (infer_fields_from_json [("id", PyInt 1); ("tags", PyList [PyStr "x"])]) "tags"
  = Return "list[str]".
Proof.
  assert (Hnd : NoDup [("id", PyInt 1); ("tags", PyList [PyStr "x"])].*1).
  { apply (bool_decide_unpack _). vm_compute. reflexivity. }
  split; [exact Hnd|].
  exact (proj1 (infer_fields_from_json_getitem
                  [("id", PyInt 1); ("tags", PyList [PyStr "x"])] "tags" Hnd)).
Defined.

(** ** The factory and the choices of the command line *)

Lemma get_builder_return_inv (builder_type : string) (builder : DataStructureBuilder) :
  get_builder builder_type = Return builder ->
  (builder_type, builder)
  ∈ [("typed_dict", TypedDictBuilder);
     ("dataclass", DataclassBuilder);
     ("pydantic", PydanticBuilder);
     ("namedtuple", NamedTupleBuilder);
     ("attrs", AttrsBuilder)].
Proof.
  intros Hget.
  destruct (decide (builder_type ∈ known_kinds)) as [Hin|Hout].
  - unfold known_kinds in Hin. rewrite !elem_of_cons in Hin.
    destruct Hin as [->|[->|[->|[->|[->|Hin]]]]];
      [injection Hget as <-; rewrite !elem_of_cons; tauto..|].
    by apply elem_of_nil in Hin.
  - rewrite list_elem_of_In in Hout.
    rewrite (get_builder_unknown _ Hout) in Hget. discriminate.
Qed.

(** X7: the factory is one-to-one: an identifier names one builder class, two
    identifiers never share a class, and every class has its identifier. *)
Theorem get_builder_bijective :
  (forall (k1 k2 : string) (builder : DataStructureBuilder),
     get_builder k1 = Return builder -> get_builder k2 = Return builder -> k1 = k2) /\
  (forall builder : DataStructureBuilder,
     exists k, In k known_kinds /\ get_builder k = Return builder).
Proof.
  split.
  - intros k1 k2 builder H1%get_builder_return_inv H2%get_builder_return_inv.
    rewrite !elem_of_cons in H1, H2.
    destruct H1 as [H1|[H1|[H1|[H1|[H1|H1%elem_of_nil]]]]]; [..|done];
      destruct H2 as [H2|[H2|[H2|[H2|[H2|H2%elem_of_nil]]]]]; [..|done];
      by simplify_eq.
  - intros [].
    + exists "typed_dict". split; [simpl; tauto | reflexivity].
    + exists "dataclass". split; [simpl; tauto | reflexivity].
    + exists "pydantic". split; [simpl; tauto | reflexivity].
    + exists "namedtuple". split; [simpl; tauto | reflexivity].
    + exists "attrs". split; [simpl; tauto | reflexivity].
Qed.

Lemma get_builder_bijective_witness :
  get_builder "attrs" = Return AttrsBuilder /\
  forall k, get_builder k = Return AttrsBuilder -> k = "attrs".
Proof.
  split; [reflexivity|]. intros k Hk.
  exact (proj1 get_builder_bijective k "attrs" AttrsBuilder Hk eq_refl).
Defined.

Lemma type_choices_builder (type : string) :
  In type type_choices -> exists builder, get_builder type = Return builder.
Proof.
  unfold type_choices. simpl.
  intros [<-|[<-|[<-|[<-|[<-|[]]]]]]; eexists; reflexivity.
Qed.

(** X3: the choices the command line accepts for [--type] are exactly the
    identifiers the factory knows: the lookup in [main] cannot raise. *)
Theorem type_choices_have_builders (type : string) :
  In type type_choices <-> exists builder, get_builder type = Return builder.
Proof.
  split; [apply type_choices_builder|].
  intros [builder Hget%get_builder_return_inv].
  rewrite !elem_of_cons in Hget. unfold type_choices. simpl.
  destruct Hget as [H|[H|[H|[H|[H|H%elem_of_nil]]]]]; [..|done];
    injection H as -> _; tauto.
Qed.

Lemma type_choices_have_builders_witness :
  In "namedtuple" type_choices /\
  exists builder, get_builder "namedtuple" = Return builder.
Proof.
  assert (Hin : In "namedtuple" type_choices) by (simpl; tauto).
  split; [exact Hin|].
  exact (proj1 (type_choices_have_builders "namedtuple") Hin).
Defined.

(** ** What the text of [build] contains *)

(** X8: the checks of the test suite, for every class name and field list: the
    text starts with the import line, and contains the class header, each
    decorator line and the class name; with no field it contains [pass]. *)
Theorem build_contains_declaration (self : DataStructureBuilder)
  (class_name : string) (fields : list (string * string)) :
  startswith (build self class_name fields) (import_line self) = true /\
  str_in (class_header self class_name) (build self class_name fields) = true /\
  (forall line, In line (decorator_lines self) ->
     str_in line (build self class_name fields) = true) /\
  str_in class_name (build self class_name fields) = true /\
  (fields = [] -> str_in "pass" (build self class_name fields) = true).
Proof.
  rewrite build_text.
  assert (Hself : forall line, str_in line line = true).
  { intros line. apply str_in_here.
    rewrite <- (str_app_nil_r line) at 1. apply startswith_app. }
  assert (Hheader : In (class_header self class_name)
                      (source_lines self class_name fields)).
  { unfold source_lines. rewrite !in_app_iff. right. right. left. by left. }
  split_and!.
  - unfold source_lines. cbn [app]. rewrite concat_NL_cons. apply startswith_app.
  - by apply (str_in_concat_NL _ (class_header self class_name)).
  - intros line Hline. apply (str_in_concat_NL _ line); [|done].
    unfold source_lines. rewrite !in_app_iff. right. by left.
  - apply (str_in_concat_NL _ (class_header self class_name)); [done|].
    destruct self; cbn [class_header]; apply str_in_app.
  - intros ->. apply (str_in_concat_NL _ "    pass"); [|reflexivity].
    unfold source_lines. rewrite !in_app_iff. right. right. right. by left.
Qed.

Lemma build_contains_declaration_witness :
  In "@dataclass" (decorator_lines DataclassBuilder) /\
  str_in "@dataclass" (build DataclassBuilder "Empty" []) = true /\
  str_in "pass" (build DataclassBuilder "Empty" []) = true.
Proof.
  assert (Hin : In "@dataclass" (decorator_lines DataclassBuilder)) by (simpl; tauto).
  split; [exact Hin|].
  destruct (build_contains_declaration DataclassBuilder "Empty" [])
    as (_ & _ & Hdeco & _ & Hpass).
  split; [exact (Hdeco "@dataclass" Hin) | exact (Hpass eq_refl)].
Defined.

(** ** The text of [build] determines its arguments *)


Lemma field_line_plain_no_newline (field : string * string) :
  field_plain field -> no_newline (field_line field) = true.
Proof.
  intros (Hname & _ & Htyp).
  unfold field_line. rewrite !no_newline_app, Hname, Htyp. reflexivity.
Qed.

Lemma source_lines_plain (self : DataStructureBuilder) (class_name : string)
  (fields : list (string * string)) :
  no_newline class_name = true -> Forall field_plain fields ->
  Forall (fun line => no_newline line = true) (source_lines self class_name fields).
Proof.
  intros Hname Hfields. unfold source_lines.
  rewrite !Forall_app. split_and!.
  - by destruct self; repeat constructor.
  - by destruct self; repeat constructor.
  - apply Forall_singleton.
    destruct self; cbn [class_header]; rewrite !no_newline_app, Hname; reflexivity.
  - destruct fields as [|field fields]; [by repeat constructor|].
    cbn [body_lines]. apply Forall_map. simpl.
    eapply Forall_impl; [exact Hfields|]. apply field_line_plain_no_newline.
Qed.

Lemma build_lines (self : DataStructureBuilder) (class_name : string)
  (fields : list (string * string)) :
  no_newline class_name = true -> Forall field_plain fields ->
  split_lines (build self class_name fields) = source_lines self class_name fields.
Proof.
  intros Hname Hok. rewrite build_text.
  pose proof (source_lines_plain self class_name fields Hname Hok) as Hnl.
  unfold source_lines in *. cbn [app] in *. by apply split_lines_concat.
Qed.

Lemma str_app_inv_tail (a b c : string) : a +:+ c = b +:+ c -> a = b.
Proof.
  revert b. induction a as [|x a IH]; intros [|y b] Heq.
  - reflexivity.
  - apply (f_equal String.length) in Heq.
    rewrite str_app_nil_l, str_app_cons in Heq. cbn [String.length] in Heq.
    rewrite str_length_app in Heq. lia.
  - apply (f_equal String.length) in Heq.
    rewrite str_app_nil_l, str_app_cons in Heq. cbn [String.length] in Heq.
    rewrite str_length_app in Heq. lia.
  - rewrite !str_app_cons in Heq. injection Heq as -> Heq.
    by rewrite (IH b Heq).
Qed.

(** The first colon of a text splits it in one way. *)
Lemma colon_app_inj (a a' rest rest' : string) :
  no_colon a = true -> no_colon a' = true ->
  a +:+ ":" +:+ rest = a' +:+ ":" +:+ rest' -> a = a' /\ rest = rest'.
Proof.
  intros Ha Ha' Heq.
  apply (f_equal (span (fun c => negb (Ascii.eqb c ":")))) in Heq.
  rewrite !span_app_all in Heq by done.
  assert (Ha_eq : a = a') by congruence.
  assert (Hrest : ":" +:+ rest = ":" +:+ rest') by congruence.
  split; [exact Ha_eq|]. by apply (inj (String.append ":")) in Hrest.
Qed.

Lemma field_line_inj (field field' : string * string) :
  no_colon field.1 = true -> no_colon field'.1 = true ->
  field_line field = field_line field' -> field = field'.
Proof.
  destruct field as [name typ], field' as [name' typ']. cbn [fst snd].
  intros Hname Hname' Heq. unfold field_line in Heq.
  cbn [fst snd] in Heq. apply (inj (String.append "    ")) in Heq.
  change (name +:+ ": " +:+ typ) with (name +:+ ":" +:+ (" " +:+ typ)) in Heq.
  change (name' +:+ ": " +:+ typ') with (name' +:+ ":" +:+ (" " +:+ typ')) in Heq.
  apply colon_app_inj in Heq as [-> Heq]; [|done..].
  apply (inj (String.append " ")) in Heq. by subst.
Qed.

Lemma body_lines_inj (fields fields' : list (string * string)) :
  Forall field_plain fields -> Forall field_plain fields' ->
  body_lines fields = body_lines fields' -> fields = fields'.
Proof.
  assert (Hpass : forall field : string * string,
            "    pass" <> field_line field).
  { intros [name typ] Heq. unfold field_line in Heq.
    cbn [fst snd] in *. apply (inj (String.append "    ")) in Heq.
    apply (f_equal (str_forallb (fun c => negb (Ascii.eqb c ":")))) in Heq.
    rewrite !str_forallb_app in Heq. cbn in Heq.
    by rewrite andb_false_r in Heq. }
  assert (Hmap : forall fs fs' : list (string * string),
            Forall field_plain fs -> Forall field_plain fs' ->
            map field_line fs = map field_line fs' -> fs = fs').
  { induction fs as [|f fs IH]; intros [|f' fs'] Hok Hok' Heq; try done.
    apply Forall_cons in Hok as [(_ & Hf & _) Hok].
    apply Forall_cons in Hok' as [(_ & Hf' & _) Hok'].
    cbn [map] in Heq.
    assert (Hhead : field_line f = field_line f') by congruence.
    assert (Htail : map field_line fs = map field_line fs') by congruence.
    f_equal; [by apply field_line_inj | by apply IH]. }
  intros Hok Hok' Heq.
  destruct fields as [|f fs], fields' as [|f' fs']; [done| | |by apply Hmap].
  - exfalso. cbn [body_lines map] in Heq. apply (Hpass f'). congruence.
  - exfalso. cbn [body_lines map] in Heq. apply (Hpass f). congruence.
Qed.

Lemma class_header_inj (self : DataStructureBuilder) (class_name class_name' : string) :
  class_header self class_name = class_header self class_name' ->
  class_name = class_name'.
Proof.
  intros Heq.
  destruct self; cbn [class_header] in Heq;
    apply (inj (String.append "class ")) in Heq;
    by apply str_app_inv_tail in Heq.
Qed.

(** X9: [build] is one-to-one on class names, field names and types that
    hold no newline, the field names without a colon (every name of the
    grammar is such): the text tells the builder class, the class name and
    the fields, in their order. *)
Theorem build_injective (self self' : DataStructureBuilder)
  (class_name class_name' : string) (fields fields' : list (string * string)) :
  no_newline class_name = true -> no_newline class_name' = true ->
  Forall field_plain fields -> Forall field_plain fields' ->
  build self class_name fields = build self' class_name' fields' ->
  self = self' /\ class_name = class_name' /\ fields = fields'.
Proof.
  intros Hname Hname' Hok Hok' Heq.
  apply (f_equal split_lines) in Heq. rewrite !build_lines in Heq by done.
  unfold source_lines in Heq. cbn [app] in Heq.
  assert (Himport : import_line self = import_line self') by congruence.
  assert (self = self') as <- by (by destruct self, self').
  assert (Hrest : decorator_lines self ++ class_header self class_name :: body_lines fields
                  = decorator_lines self ++ class_header self class_name' :: body_lines fields')
    by congruence.
  apply app_inv_head in Hrest.
  assert (Hheader : class_header self class_name = class_header self class_name')
    by congruence.
  assert (Hbody : body_lines fields = body_lines fields') by congruence.
  split; [reflexivity|]. split.
  - by apply (class_header_inj self).
  - by apply body_lines_inj.
Qed.

Lemma build_injective_witness :
  (no_newline "User" = true /\ Forall field_plain [("first name", "list[str]")]) /\
  forall (self : DataStructureBuilder) (fields : list (string * string)),
    Forall field_plain fields ->
    build TypedDictBuilder "User" [("first name", "list[str]")]
    = build self "User" fields ->
    self = TypedDictBuilder /\ fields = [("first name", "list[str]")].
Proof.
  assert (Hok : Forall field_plain [("first name", "list[str]")]).
  { repeat constructor. }
  split; [split; [reflexivity | exact Hok]|].
  intros self fields Hfields Heq.
  destruct (build_injective TypedDictBuilder self "User" "User"
              [("first name", "list[str]")] fields eq_refl eq_refl Hok Hfields Heq)
    as (Hself & _ & Hf).
  split; [symmetry; exact Hself | symmetry; exact Hf].
Defined.

(** ** From JSON to code *)






Lemma concat_NL_app (pre lines : list string) :
  pre <> [] ->
  String.concat NL (pre ++ lines) = String.concat NL pre +:+ more_lines lines.
Proof.
  destruct pre as [|x pre]; [done|]. intros _.
  rewrite <- app_comm_cons, !concat_NL_cons, more_lines_app.
  by rewrite str_app_assoc.
Qed.

Lemma build_text_split (self : DataStructureBuilder) (class_name : string)
  (fields : list (string * string)) :
  build self class_name fields
  = String.concat NL
      ([import_line self; ""] ++ decorator_lines self ++ [class_header self class_name])
    +:+ more_lines (body_lines fields).
Proof.
  rewrite build_text. unfold source_lines.
  rewrite !app_assoc. apply concat_NL_app. by destruct self.
Qed.

(** X2: an empty JSON object counts as no JSON in [main]: the code is the one
    generated without JSON, with the three example fields, and it is never
    the class with the body [pass] that [build] gives for no field. *)
Theorem main_empty_json_uses_defaults (type name : string)
  (builder : DataStructureBuilder) :
  get_builder type = Return builder ->
  main_generated_code type name (Some []) = main_generated_code type name None /\
  main_generated_code type name (Some [])
  = Return (build builder name
              [("user_id", "int"); ("username", "str"); ("is_active", "bool")]) /\
  main_generated_code type name (Some []) <> Return (build builder name []).
Proof.
  intros Hbuilder. unfold main_generated_code. rewrite Hbuilder.
  cbn [main_fields]. split_and!; [reflexivity..|].
  intros [= Heq]. rewrite !build_text_split in Heq.
  apply (inj (String.append _)) in Heq. vm_compute in Heq. discriminate Heq.
Qed.

Lemma main_empty_json_uses_defaults_witness :
  get_builder "attrs" = Return AttrsBuilder /\
  main_generated_code "attrs" "GeneratedModel" (Some [])
  = main_generated_code "attrs" "GeneratedModel" None /\
  main_generated_code "attrs" "GeneratedModel" (Some [])
  <> Return (build AttrsBuilder "GeneratedModel" []).
Proof.
  split; [reflexivity|].
  destruct (main_empty_json_uses_defaults "attrs" "GeneratedModel" AttrsBuilder eq_refl)
    as (Hsame & _ & Hne).
  split; [exact Hsame | exact Hne].
Defined.

(** ** Calls on the store *)

(** X10: two calls of [infer_fields_from_json] on the same dict return two new
    dicts, different from each other and from the argument, with the same
    items; the first result is not touched by the second call. *)
Theorem infer_fields_from_json_fresh (st : gmap loc object) (data : loc)
  (items : list (string * pyvalue)) :
  st !! data = Some (JsonDict items) ->
  exists first second st1 st2,
    infer_fields_from_json_st data st = Return (first, st1) /\
    infer_fields_from_json_st data st1 = Return (second, st2) /\
    st !! first = None /\ st1 !! second = None /\
    first <> second /\ first <> data /\ second <> data /\
    st2 !! first = Some (FieldDict (infer_fields_from_json items)) /\
    st2 !! second = Some (FieldDict (infer_fields_from_json items)).
Proof.
  intros Hdata.
  set (first := fresh (dom st)).
  set (st1 := <[first := FieldDict (infer_fields_from_json items)]> st).
  assert (Hne : first <> data) by (by eapply fresh_ne).
  assert (Hdata1 : st1 !! data = Some (JsonDict items))
    by (unfold st1; by rewrite lookup_insert_ne).
  assert (Hfirst1 : st1 !! first = Some (FieldDict (infer_fields_from_json items)))
    by (unfold st1; by rewrite lookup_insert_eq).
  set (second := fresh (dom st1)).
  exists first, second, st1,
    (<[second := FieldDict (infer_fields_from_json items)]> st1).
  assert (Hne2 : second <> first) by (by eapply fresh_ne).
  split_and!.
  - by apply infer_fields_from_json_st_spec.
  - by apply infer_fields_from_json_st_spec.
  - apply fresh_lookup.
  - apply fresh_lookup.
  - done.
  - done.
  - by eapply fresh_ne.
  - by rewrite lookup_insert_ne.
  - by rewrite lookup_insert_eq.
Qed.

Lemma infer_fields_from_json_fresh_witness :
  example_store !! 2%positive
  = Some (JsonDict [("user_id", PyInt 123); ("tags", PyList [PyStr "a"])]) /\
  exists first second st1 st2,
    infer_fields_from_json_st 2%positive example_store = Return (first, st1) /\
    infer_fields_from_json_st 2%positive st1 = Return (second, st2) /\
    first <> second.
Proof.
  assert (H2 : example_store !! 2%positive
               = Some (JsonDict [("user_id", PyInt 123); ("tags", PyList [PyStr "a"])]))
    by (vm_compute; reflexivity).
  split; [exact H2|].
  destruct (infer_fields_from_json_fresh example_store 2%positive _ H2)
    as (first & second & st1 & st2 & Hcall1 & Hcall2 & _ & _ & Hne & _).
  exists first, second, st1, st2. split_and!; assumption.
Defined.

(** X11: the pipeline on the store: [infer_fields_from_json] and then [build] on
    its result return the text of [build] on the inferred fields, and leave
    the JSON dict and every other object of the store as they were. *)
Theorem infer_then_build_st (st : gmap loc object) (data : loc)
  (items : list (string * pyvalue)) (self : DataStructureBuilder)
  (class_name : string) :
  st !! data = Some (JsonDict items) ->
  exists st',
    (fields ← infer_fields_from_json_st data; build_st self class_name fields) st
    = Return (build self class_name (infer_fields_from_json items), st') /\
    st' !! data = Some (JsonDict items) /\
    forall l o, st !! l = Some o -> st' !! l = Some o.
Proof.
  intros Hdata.
  set (fields := fresh (dom st)).
  set (st1 := <[fields := FieldDict (infer_fields_from_json items)]> st).
  assert (Hframe1 : forall l o, st !! l = Some o -> st1 !! l = Some o).
  { intros l o Hl. unfold st1. rewrite lookup_insert_ne; [done|].
    by eapply fresh_ne. }
  assert (Hframe2 : forall (o' : object) l o,
            st1 !! l = Some o -> <[fresh (dom st1) := o']> st1 !! l = Some o).
  { intros o' l o Hl. rewrite lookup_insert_ne; [done|]. by eapply fresh_ne. }
  eexists.
  rewrite (bind_return _ _ _ _ _
             (infer_fields_from_json_st_spec data items st Hdata)).
  fold fields st1.
  rewrite (build_st_spec self class_name fields (infer_fields_from_json items) st1)
    by (unfold st1; by rewrite lookup_insert_eq).
  split_and!; [reflexivity|by eauto|by eauto].
Qed.

Lemma infer_then_build_st_witness :
  example_store !! 2%positive
  = Some (JsonDict [("user_id", PyInt 123); ("tags", PyList [PyStr "a"])]) /\
  exists st',
    (fields ← infer_fields_from_json_st 2%positive;
     build_st TypedDictBuilder "User" fields) example_store
    = Return (build TypedDictBuilder "User"
                [("user_id", "int"); ("tags", "list[str]")], st').
Proof.
  assert (H2 : example_store !! 2%positive
               = Some (JsonDict [("user_id", PyInt 123); ("tags", PyList [PyStr "a"])]))
    by (vm_compute; reflexivity).
  split; [exact H2|].
  destruct (infer_then_build_st example_store 2%positive _ TypedDictBuilder "User" H2)
    as (st' & Hrun & _).
  exists st'. exact Hrun.
Defined.
